(** * TheBigHop: the submission pipeline of [server/app.py]

    A shallow embedding of the travel-log server: the sanitizer, the
    per-origin rate limiter, the payment verifier, the location resolver,
    the [entries] table, the exporter and the [/api/submit] handler.

    Modelling conventions
    - A Python [str] is a list of Unicode code points ([pystr]).
    - A decoded JSON value is a [pyval]; dictionaries are association
      lists read with first-match lookup.
    - A Python [float] is an IEEE 754 binary64 number ([spec_float] with
      precision 53 and maximal exponent 1024): conversions and divisions
      round to nearest, ties to even, and infinities, NaN and the two
      zeros are values. The clock readings of the rate limiter are the
      rationals they denote.
    - A raised exception is the [Raise] case of [result].
    - Everything the handler reads from outside (clock, HTTP answers of
      the two fact-sources, the outcome of the file write) is supplied by
      an [env] record, one per request.
    - Requests are handled one at a time, and the database file itself
      does not fail (no lock or disk error on [INSERT] or [SELECT]); an
      [INSERT] fails when a text cannot be encoded or a constraint of the
      schema is violated. *)

From Stdlib Require Import ZArith NArith QArith List String Ascii Bool Lia Sorted.
From Stdlib Require Import Floats.SpecFloat.
From stdpp Require Import gmap.
Import ListNotations.

Set Warnings "-register-all".

(** ** Python values *)

Definition pystr := list N.

Definition str (s : string) : pystr :=
  List.map N_of_ascii (list_ascii_of_string s).

(** A [float]: a binary64 number. *)
Definition pyfloat : Type := spec_float.

Inductive pyval :=
| PyNone
| PyBool (b : bool)
| PyInt (z : Z)
| PyFloat (f : pyfloat)
| PyStr (s : pystr)
| PyList (l : list pyval)
| PyDict (d : list (pystr * pyval)).

Inductive exn :=
| AttributeError | TypeError | KeyError | IndexError | ValueError
| RequestException | JSONDecodeError | IntegrityError | OSError
| OverflowError | ZeroDivisionError | UnicodeEncodeError.

Inductive result (A : Type) :=
| Ok (a : A)
| Raise (e : exn).
Arguments Ok {A} a.
Arguments Raise {A} e.

Definition bind {A B} (c : result A) (k : A -> result B) : result B :=
  match c with
  | Ok a => k a
  | Raise e => Raise e
  end.

Notation "'let*' x ':=' c 'in' k" := (bind c (fun x => k))
  (at level 10, x name, c at level 100, k at level 200).

(** [try: c except Exception: d] *)
Definition try_except {A} (c : result A) (d : A) : A :=
  match c with
  | Ok a => a
  | Raise _ => d
  end.

Definition pystr_eqb (a b : pystr) : bool := bool_decide (a = b).

(** ** Floats *)

Definition is_nan (f : pyfloat) : bool :=
  match f with
  | S754_nan => true
  | _ => false
  end.

Definition is_zero (f : pyfloat) : bool :=
  match f with
  | S754_zero _ => true
  | _ => false
  end.

(** The double nearest to an integer, ties to even; infinite when the
    integer rounds beyond the largest double. *)
Definition float64_of_int (z : Z) : pyfloat :=
  binary_normalize 53 1024 z 0 false.

(** [float(z)] for an [int]: "int too large to convert to float". *)
Definition float_of_int (z : Z) : result pyfloat :=
  match float64_of_int z with
  | S754_infinity _ => Raise OverflowError
  | f => Ok f
  end.

(** [int(f)] for a [float]: truncation towards zero. *)
Definition int_of_float (f : pyfloat) : result Z :=
  match f with
  | S754_zero _ => Ok 0%Z
  | S754_infinity _ => Raise OverflowError
  | S754_nan => Raise ValueError
  | S754_finite s m e =>
      let v := Z.shiftl (Zpos m) e in
      Ok (if s then - v else v)%Z
  end.

(** [x / y] on two floats *)
Definition float_truediv (x y : pyfloat) : result pyfloat :=
  if is_zero y then Raise ZeroDivisionError else Ok (SFdiv 53 1024 x y).

(** [z / y] for an [int] and a [float]: the integer is converted first. *)
Definition int_truediv_float (z : Z) (y : pyfloat) : result pyfloat :=
  let* x := float_of_int z in
  float_truediv x y.

(** The literal [1e8]: 10^8 = 6710886400000000 * 2^-26. *)
Definition float_1e8 : pyfloat := S754_finite false 6710886400000000 (-26).

(** Truth value of an object, as used by [or], [not] and [if]. *)
Definition truthy (v : pyval) : bool :=
  match v with
  | PyNone => false
  | PyBool b => b
  | PyInt z => negb (z =? 0)%Z
  | PyFloat f => negb (is_zero f)
  | PyStr s => negb (bool_decide (s = []))
  | PyList l => match l with [] => false | _ => true end
  | PyDict d => match d with [] => false | _ => true end
  end.

(** [a or b] *)
Definition py_or (a b : pyval) : pyval := if truthy a then a else b.

Fixpoint assoc (k : pystr) (d : list (pystr * pyval)) : option pyval :=
  match d with
  | [] => None
  | (k', v) :: d' => if pystr_eqb k k' then Some v else assoc k d'
  end.

(** [o.get(k, default)]; only dictionaries have a [get] method. *)
Definition py_get (o : pyval) (k : pystr) (default : pyval) : result pyval :=
  match o with
  | PyDict d => Ok (match assoc k d with Some v => v | None => default end)
  | _ => Raise AttributeError
  end.

(** ** Sanitizer *)

Definition SPACE : N := 32%N.

(** [str.isspace] on one code point; the class [\s] of [re] on [str]
    patterns is the same set. *)
Definition isspace (c : N) : bool :=
  ((9 <=? c) && (c <=? 13) || (28 <=? c) && (c <=? 32)
   || (c =? 133) || (c =? 160) || (c =? 5760)
   || (8192 <=? c) && (c <=? 8202)
   || (c =? 8232) || (c =? 8233) || (c =? 8239) || (c =? 8287)
   || (c =? 12288))%N.

Fixpoint lstrip (s : pystr) : pystr :=
  match s with
  | [] => []
  | c :: r => if isspace c then lstrip r else s
  end.

Definition rstrip (s : pystr) : pystr :=
  fold_right (fun c acc =>
                match acc with
                | [] => if isspace c then [] else [c]
                | _ => c :: acc
                end) [] s.

(** [s.strip()] *)
Definition strip (s : pystr) : pystr := rstrip (lstrip s).

(** [re.sub(r"\s+", " ", s)]: a left-to-right scan; [in_run] tells that
    the scan is inside a match of [\s+] whose replacement was emitted. *)
Fixpoint re_sub_ws (in_run : bool) (s : pystr) : pystr :=
  match s with
  | [] => []
  | c :: r =>
      if isspace c
      then (if in_run then re_sub_ws true r else SPACE :: re_sub_ws true r)
      else c :: re_sub_ws false r
  end.

(** [s[:n]], negative [n] counting from the end. *)
Definition slice_to (n : Z) (s : pystr) : pystr :=
  if (0 <=? n)%Z then firstn (Z.to_nat n) s
  else firstn (Z.to_nat (Z.of_nat (length s) + n)) s.

(** [(s or "").strip()]: only [str] has a [strip] method. *)
Definition or_empty_strip (s : pyval) : result pystr :=
  match py_or s (PyStr []) with
  | PyStr t => Ok (strip t)
  | _ => Raise AttributeError
  end.

Definition sanitize_text (s : pyval) (max_len : Z) : result pystr :=
  let* s1 := or_empty_strip s in
  let s2 := re_sub_ws false s1 in
  Ok (slice_to max_len s2).

Definition is_hex (c : N) : bool :=
  ((48 <=? c) && (c <=? 57) || (97 <=? c) && (c <=? 102)
   || (65 <=? c) && (c <=? 70))%N.

(** [bool(re.fullmatch(r"[0-9a-fA-F]{64}", txid or ""))] *)
Definition valid_txid (txid : pystr) : bool :=
  (length txid =? 64)%nat && forallb is_hex txid.

(** ** Configuration and conversions *)

(** Configuration read from the process environment at start-up. *)
Class Config := {
  BTC_ADDRESS : pystr;
  ORIGIN_LABEL : pystr
}.

(** [int(s)] and [float(s)] on a [str]; [None] stands for [ValueError]. *)
Class Builtins := {
  int_of_str : pystr -> option Z;
  float_of_str : pystr -> option pyfloat
}.

Section Server.

Context {cfg : Config} {py : Builtins}.

Definition ALIAS_MAX : Z := 30.
Definition CITY_MAX : Z := 60.
Definition COUNTRY_MAX : Z := 60.
Definition RATE_LIMIT_WINDOW_S : Q := 60.
Definition RATE_LIMIT_MAX : nat := 12.

(** [int(v)] *)
Definition py_int (v : pyval) : result Z :=
  match v with
  | PyInt z => Ok z
  | PyBool b => Ok (if b then 1 else 0)%Z
  | PyFloat f => int_of_float f
  | PyStr s => match int_of_str s with Some z => Ok z | None => Raise ValueError end
  | _ => Raise TypeError
  end.

(** [float(v)] *)
Definition py_float (v : pyval) : result pyfloat :=
  match v with
  | PyInt z => float_of_int z
  | PyBool b => float_of_int (if b then 1 else 0)
  | PyFloat f => Ok f
  | PyStr s => match float_of_str s with Some f => Ok f | None => Raise ValueError end
  | _ => Raise TypeError
  end.

(** The items visited by [for o in v]. *)
Definition py_iter (v : pyval) : result (list pyval) :=
  match v with
  | PyList l => Ok l
  | PyStr s => Ok (List.map (fun c => PyStr [c]) s)
  | PyDict d => Ok (List.map (fun kv => PyStr (fst kv)) d)
  | _ => Raise TypeError
  end.

(** [v[0]]; the keys of a decoded JSON object are strings, never [0]. *)
Definition py_index0 (v : pyval) : result pyval :=
  match v with
  | PyList (x :: _) => Ok x
  | PyList [] => Raise IndexError
  | PyStr (c :: _) => Ok (PyStr [c])
  | PyStr [] => Raise IndexError
  | PyDict _ => Raise KeyError
  | _ => Raise TypeError
  end.

(** [v[k]] for a string key [k] *)
Definition py_getitem (v : pyval) (k : pystr) : result pyval :=
  match v with
  | PyDict d => match assoc k d with Some x => Ok x | None => Raise KeyError end
  | _ => Raise TypeError
  end.

(** [spk == addr] where [addr] is a [str] *)
Definition eq_str (spk : pyval) (addr : pystr) : bool :=
  match spk with
  | PyStr s => pystr_eqb s addr
  | _ => false
  end.

(** ** The outside world, as seen by one request *)

(** [requests.get(...)]: an exception (unreachable, timeout) or a reply
    with a status code and the outcome of [r.json()]. *)
Inductive http_reply :=
| HttpRaise (e : exn)
| HttpResp (status_code : Z) (json : result pyval).

(** What becomes of [log.json] when the exporter runs. *)
Inductive fs_outcome :=
| WriteOk      (* the document is written *)
| OpenFails    (* [os.makedirs] or [open] raises; the file is untouched *)
| DumpFails.   (* [json.dump] raises after [open] truncated the file *)

Record env := {
  time_time : Q;                   (* [time.time()] in [rate_limited] *)
  tx_http : pystr -> http_reply;   (* transaction lookup, by txid *)
  geo_http : pystr -> http_reply;  (* geocoding lookup, by query *)
  now_iso : pystr;                 (* [utc_now_iso()] of the handler *)
  export_iso : pystr;              (* [utc_now_iso()] of the exporter *)
  fs : fs_outcome
}.

(** ** Location resolver *)

Definition geocode_city_country (w : env) (city country : pystr)
  : result (option (pyfloat * pyfloat)) :=
  let q := city ++ str ", " ++ country in
  match geo_http w q with
  | HttpRaise e => Raise e
  | HttpResp status_code json =>
      if negb (status_code =? 200)%Z then Ok None else
      let* data := json in
      if negb (truthy data) then Ok None else
      let* first := py_index0 data in
      let* la := py_getitem first (str "lat") in
      let* lat := py_float la in
      let* lo := py_getitem first (str "lon") in
      let* lon := py_float lo in
      Ok (Some (lat, lon))
  end.

(** ** Payment verifier *)

(** The loop over [vouts], with the running total [sats]. *)
Fixpoint sum_vouts (addr : pystr) (vouts : list pyval) (sats : Z) : result Z :=
  match vouts with
  | [] => Ok sats
  | o :: rest =>
      let* spk := py_get o (str "scriptpubkey_address") PyNone in
      if eq_str spk addr then
        let* v := py_get o (str "value") (PyInt 0) in
        let* n := py_int v in
        sum_vouts addr rest (sats + n)
      else sum_vouts addr rest sats
  end.

Definition tx_amount_to_our_address_btc (w : env) (txid addr : pystr)
  : result (option pyfloat) :=
  match tx_http w txid with
  | HttpRaise e => Raise e
  | HttpResp status_code json =>
      if negb (status_code =? 200)%Z then Ok None else
      let* tx := json in
      let* vouts := py_get tx (str "vout") (PyList []) in
      let* items := py_iter vouts in
      let* sats := sum_vouts addr items 0 in
      if (sats <=? 0)%Z then Ok None
      else
        let* amount := int_truediv_float sats float_1e8 in
        Ok (Some amount)
  end.

(** ** Rate limiter *)

Definition Qltb (x y : Q) : bool := negb (Qle_bool y x).

Definition rate_limited (ip : pystr) (now : Q) (_ip_hits : gmap pystr (list Q))
  : gmap pystr (list Q) * bool :=
  let hits := default [] (_ip_hits !! ip) in
  let hits := List.filter (fun t => Qltb (now - t) RATE_LIMIT_WINDOW_S) hits in
  let hits := hits ++ [now] in
  (<[ip := hits]> _ip_hits, (RATE_LIMIT_MAX <? length hits)%nat).

(** ** Ledger store: the [entries] table *)

(** One row; the [NOT NULL] columns are plain, [alias] may be [NULL]. *)
Record row := {
  row_id : Z;
  row_txid : pystr;
  row_alias : option pystr;
  row_city : pystr;
  row_country : pystr;
  row_lat : pyfloat;
  row_lng : pyfloat;
  row_amount_btc : pyfloat;
  row_iso_date : pystr
}.

(** The rows in the order they were inserted, and the largest id handed
    out so far ([AUTOINCREMENT]). *)
Record table := { rows : list row; seq : Z }.

Definition empty_table : table := {| rows := []; seq := 0 |}.

(** A surrogate code point (U+D800 to U+DFFF), which UTF-8 does not
    encode. *)
Definition is_surrogate (c : N) : bool := ((55296 <=? c) && (c <=? 57343))%N.

(** [s.encode("utf-8")] succeeds: binding a [str] to a parameter of a
    statement encodes it, and raises [UnicodeEncodeError] otherwise. *)
Definition encodable (s : pystr) : bool :=
  forallb (fun c => negb (is_surrogate c)) s.

(** A [float] bound to a parameter, as a [REAL] column holds it: NaN is
    bound as [NULL], and a zero is stored without its sign. *)
Definition sqlite_real (f : pyfloat) : option pyfloat :=
  match f with
  | S754_nan => None
  | S754_zero _ => Some (S754_zero false)
  | _ => Some f
  end.

(** [INSERT INTO entries (txid, ..., iso_date) VALUES (...)]: the eight
    parameters are bound, then the row is checked against the schema;
    [NOT NULL] on the three [REAL] columns and [UNIQUE] on [txid] raise
    [IntegrityError]. A failed statement leaves the table and the id
    sequence as they were. *)
Definition db_insert (t : table) (txid alias city country : pystr)
  (lat lng amount_btc : pyfloat) (iso_date : pystr) : result table :=
  if negb (forallb encodable [txid; alias; city; country; iso_date])
  then Raise UnicodeEncodeError
  else
    match sqlite_real lat, sqlite_real lng, sqlite_real amount_btc with
    | Some lat, Some lng, Some amount_btc =>
        if existsb (fun r => pystr_eqb (row_txid r) txid) (rows t)
        then Raise IntegrityError
        else Ok {| rows := rows t ++
                     [ {| row_id := seq t + 1; row_txid := txid;
                          row_alias := Some alias; row_city := city;
                          row_country := country; row_lat := lat;
                          row_lng := lng; row_amount_btc := amount_btc;
                          row_iso_date := iso_date |} ];
                   seq := seq t + 1 |}
    | _, _, _ => Raise IntegrityError
    end.

Fixpoint insert_by_id (r : row) (l : list row) : list row :=
  match l with
  | [] => [r]
  | x :: l' => if (row_id r <=? row_id x)%Z then r :: l else x :: insert_by_id r l'
  end.

(** [SELECT * FROM entries ORDER BY id ASC] *)
Definition select_order_by_id (t : table) : list row :=
  fold_right insert_by_id [] (rows t).

(** ** Exporter *)

(** Contents of [site/data/log.json]. *)
Inductive file :=
| NoFile
| Truncated
| Written (doc : pyval).

Record state := {
  _ip_hits : gmap pystr (list Q);
  db : table;
  log_json : file
}.

Definition sql_text (v : option pystr) : pyval :=
  match v with
  | Some s => PyStr s
  | None => PyNone
  end.

(** The dictionary appended for one row. *)
Definition entry_json (r : row) : pyval :=
  PyDict [ (str "txid", PyStr (row_txid r));
           (str "alias", py_or (sql_text (row_alias r)) (PyStr []));
           (str "city", PyStr (row_city r));
           (str "country", PyStr (row_country r));
           (str "lat", PyFloat (row_lat r));
           (str "lng", PyFloat (row_lng r));
           (str "amount_btc", PyFloat (row_amount_btc r));
           (str "iso_date", PyStr (row_iso_date r)) ].

Definition project_json (exported_iso : pystr) : pyval :=
  PyDict [ (str "origin_label", PyStr ORIGIN_LABEL);
           (str "btc_address", PyStr BTC_ADDRESS);
           (str "exported_iso", PyStr exported_iso) ].

Definition export_document (exported_iso : pystr) (t : table) : pyval :=
  let entries := List.map entry_json (select_order_by_id t) in
  PyDict [ (str "project", project_json exported_iso);
           (str "entries", PyList entries) ].

Definition export_log_json (w : env) (st : state) : state * result unit :=
  let out := export_document (export_iso w) (db st) in
  match fs w with
  | WriteOk =>
      ({| _ip_hits := _ip_hits st; db := db st; log_json := Written out |}, Ok tt)
  | OpenFails => (st, Raise OSError)
  | DumpFails =>
      ({| _ip_hits := _ip_hits st; db := db st; log_json := Truncated |},
       Raise OSError)
  end.

(** [GET /api/log] *)
Definition api_log (w : env) (st : state) : pyval :=
  export_document (export_iso w) (db st).

(** ** Submission orchestrator: [POST /api/submit] *)

Record request := {
  x_forwarded_for : option pystr;  (* the [X-Forwarded-For] header *)
  remote_addr : option pystr;      (* [request.remote_addr] *)
  get_json : pyval                 (* [request.get_json(silent=True)] *)
}.

(** A returned response, [jsonify(body), status]. An exception that
    leaves the handler ([Raise]) is answered by the framework with 500. *)
Definition response : Type := pyval * Z.

Definition error_json (msg : string) : pyval :=
  PyDict [ (str "error", PyStr (str msg)) ].

Definition ok_json : pyval := PyDict [ (str "ok", PyBool true) ].

Definition QuotaExceeded : response :=
  (error_json "Too many requests. Try again later.", 429%Z).
Definition BadTxid : response :=
  (error_json "TXID must be a 64-character hex string.", 400%Z).
Definition MissingPlace : response :=
  (error_json "City and country are required.", 400%Z).
Definition Unverified : response :=
  (error_json "Could not verify a payment to the project address for this TXID.", 400%Z).
Definition Unresolved : response :=
  (error_json "Could not geocode that city/country. Try a nearby major city.", 400%Z).
Definition Duplicate : response :=
  (error_json "That TXID is already in the log.", 409%Z).
Definition Accepted : response := (ok_json, 200%Z).

(** [request.headers.get("X-Forwarded-For", request.remote_addr) or "unknown"] *)
Definition client_ip (rq : request) : pystr :=
  let v := match x_forwarded_for rq with
           | Some h => Some h
           | None => remote_addr rq
           end in
  match v with
  | Some (c :: s) => c :: s
  | _ => str "unknown"
  end.

(** The four sanitized text fields, in the order they are computed. *)
Record fields := {
  f_txid : pystr;
  f_alias : pystr;
  f_city : pystr;
  f_country : pystr
}.

Definition read_fields (rq : request) : result fields :=
  let data := py_or (get_json rq) (PyDict []) in
  let* v1 := py_get data (str "txid") (PyStr []) in
  let* txid := sanitize_text v1 64 in
  let* v2 := py_get data (str "alias") (PyStr []) in
  let* alias := sanitize_text v2 ALIAS_MAX in
  let* v3 := py_get data (str "city") (PyStr []) in
  let* city := sanitize_text v3 CITY_MAX in
  let* v4 := py_get data (str "country") (PyStr []) in
  let* country := sanitize_text v4 COUNTRY_MAX in
  Ok {| f_txid := txid; f_alias := alias; f_city := city; f_country := country |}.

Definition is_empty (s : pystr) : bool :=
  match s with
  | [] => true
  | _ => false
  end.

(** The payment verifier as the handler calls it:
    [try: ... except Exception: amount_btc = None]. *)
Definition verify_payment (w : env) (txid : pystr) : option pyfloat :=
  try_except (tx_amount_to_our_address_btc w txid BTC_ADDRESS) None.

(** The location resolver as the handler calls it. *)
Definition resolve_location (w : env) (city country : pystr)
  : option (pyfloat * pyfloat) :=
  try_except (geocode_city_country w city country) None.

(** The values bound by the [INSERT]. *)
Record candidate := {
  c_fields : fields;
  c_lat : pyfloat;
  c_lng : pyfloat;
  c_amount_btc : pyfloat;
  c_iso_date : pystr
}.

(** The gates between the rate check and the insert: [inl] is an early
    [return], [inr] carries the values that reach the insert. *)
Definition gates (rq : request) (w : env) : result (response + candidate) :=
  let* f := read_fields rq in
  if negb (valid_txid (f_txid f)) then Ok (inl BadTxid) else
  if is_empty (f_city f) || is_empty (f_country f) then Ok (inl MissingPlace) else
  match verify_payment w (f_txid f) with
  | None => Ok (inl Unverified)
  | Some amount_btc =>
      match resolve_location w (f_city f) (f_country f) with
      | None => Ok (inl Unresolved)
      | Some (lat, lng) =>
          Ok (inr {| c_fields := f; c_lat := lat; c_lng := lng;
                     c_amount_btc := amount_btc; c_iso_date := now_iso w |})
      end
  end.

Definition insert_candidate (t : table) (c : candidate) : result table :=
  db_insert t (f_txid (c_fields c)) (f_alias (c_fields c))
    (f_city (c_fields c)) (f_country (c_fields c))
    (c_lat c) (c_lng c) (c_amount_btc c) (c_iso_date c).

Definition with_hits (st : state) (h : gmap pystr (list Q)) : state :=
  {| _ip_hits := h; db := db st; log_json := log_json st |}.

Definition with_db (st : state) (t : table) : state :=
  {| _ip_hits := _ip_hits st; db := t; log_json := log_json st |}.

Definition api_submit (rq : request) (w : env) (st : state)
  : state * result response :=
  let ip := client_ip rq in
  let (hits, limited) := rate_limited ip (time_time w) (_ip_hits st) in
  let st1 := with_hits st hits in
  if limited then (st1, Ok QuotaExceeded) else
  match gates rq w with
  | Raise e => (st1, Raise e)
  | Ok (inl early) => (st1, Ok early)
  | Ok (inr c) =>
      match insert_candidate (db st1) c with
      | Raise IntegrityError => (st1, Ok Duplicate)
      | Raise e => (st1, Raise e)
      | Ok t =>
          (* [try: export_log_json() except Exception: pass] *)
          let (st2, _) := export_log_json w (with_db st1 t) in
          (st2, Ok Accepted)
      end
  end.

(** ** The service as a transition system *)

Inductive op :=
| Start                   (* [main]: [init_db()], then [export_log_json()] *)
| Submit (rq : request)   (* [POST /api/submit] *)
| Log.                    (* [GET /api/log] *)

(** A start of the process finds the table and the file as they were
    left, and an empty [_ip_hits]. *)
Definition step (st : state) (o : op * env) : state :=
  match fst o with
  | Start => fst (export_log_json (snd o) (with_hits st ∅))
  | Submit rq => fst (api_submit rq (snd o) st)
  | Log => st
  end.

Definition run (trace : list (op * env)) (st : state) : state :=
  fold_left step trace st.

(** Before the first start: no row, no exported file. *)
Definition fresh : state :=
  {| _ip_hits := ∅; db := empty_table; log_json := NoFile |}.

End Server.

(** ** Vocabulary of the specification *)

Section Vocabulary.

Context {cfg : Config} {py : Builtins}.

Definition starts_ws (s : pystr) : bool :=
  match s with
  | c :: _ => isspace c
  | [] => false
  end.

Fixpoint ends_ws (s : pystr) : bool :=
  match s with
  | [] => false
  | [c] => isspace c
  | _ :: r => ends_ws r
  end.

(** No two adjacent whitespace characters. *)
Fixpoint no_double_ws (s : pystr) : bool :=
  match s with
  | [] => true
  | c :: r => negb (isspace c && starts_ws r) && no_double_ws r
  end.

(** The words of [s], as [s.split()] gives them. *)
Fixpoint split_ws (s : pystr) : list pystr :=
  match s with
  | [] => []
  | c :: r =>
      if isspace c then split_ws r
      else match split_ws r with
           | w :: ws => if starts_ws r then [c] :: w :: ws else (c :: w) :: ws
           | [] => [[c]]
           end
  end.

(** [" ".join(ws)] *)
Fixpoint join_sp (ws : list pystr) : pystr :=
  match ws with
  | [] => []
  | [w] => w
  | w :: ws' => w ++ SPACE :: join_sp ws'
  end.

(** The transaction id a request carries, once sanitized. *)
Definition txid_of (rq : request) : result pystr :=
  let data := py_or (get_json rq) (PyDict []) in
  let* v := py_get data (str "txid") (PyStr []) in
  sanitize_text v 64.

(** A field of the body that is missing, [null] or a string. *)
Definition text_field (k : pystr) (d : list (pystr * pyval)) : Prop :=
  assoc k d = None \/ assoc k d = Some PyNone \/ exists s, assoc k d = Some (PyStr s).

(** The rate limiter lets the request through. *)
Definition within_quota (rq : request) (w : env) (st : state) : Prop :=
  snd (rate_limited (client_ip rq) (time_time w) (_ip_hits st)) = false.

(** The request gets as far as the [INSERT]. *)
Definition reaches_persist (rq : request) (w : env) (st : state) : Prop :=
  within_quota rq w st /\ exists c, gates rq w = Ok (inr c).


(** What the schema and [AUTOINCREMENT] guarantee of a table. *)
Record table_ok (t : table) : Prop := {
  txid_unique : NoDup (List.map row_txid (rows t));
  ids_ascending : StronglySorted Z.lt (List.map row_id (rows t));
  ids_below_seq : Forall (fun r => (row_id r <= seq t)%Z) (rows t)
}.

(** A stored place name as claim C10 words it. *)
Definition place_claimed (s : pystr) : Prop :=
  s <> [] /\ (length s <= 60)%nat /\ starts_ws s = false /\ ends_ws s = false.

(** A stored place name as the code leaves it. *)
Definition place_ok (s : pystr) : Prop :=
  s <> [] /\ (length s <= 60)%nat /\ starts_ws s = false /\
  no_double_ws s = true /\ (ends_ws s = true -> length s = 60%nat).

Definition alias_ok (a : option pystr) : Prop :=
  match a with
  | Some s => (length s <= 30)%nat
  | None => True
  end.

Definition entry_claimed (r : row) : Prop :=
  valid_txid (row_txid r) = true /\ place_claimed (row_city r) /\
  place_claimed (row_country r) /\ alias_ok (row_alias r).

Definition entry_ok (r : row) : Prop :=
  valid_txid (row_txid r) = true /\ place_ok (row_city r) /\
  place_ok (row_country r) /\ alias_ok (row_alias r).

(** One output of a transaction, as the fact-source contract has it. *)
Record vout := {
  vout_address : option pystr;
  vout_value : Z
}.

(** A decoded JSON object that carries the output [o]. *)
Definition vout_json (j : pyval) (o : vout) : Prop :=
  exists d, j = PyDict d /\
    assoc (str "value") d = Some (PyInt (vout_value o)) /\
    match vout_address o with
    | Some a => assoc (str "scriptpubkey_address") d = Some (PyStr a)
    | None => assoc (str "scriptpubkey_address") d = None \/
              assoc (str "scriptpubkey_address") d = Some PyNone
    end.

(** A decoded transaction whose output list is [outs]. *)
Definition tx_json (tx : pyval) (outs : list vout) : Prop :=
  exists d items, tx = PyDict d /\ assoc (str "vout") d = Some (PyList items) /\
    Forall2 vout_json items outs.

Definition pays (addr : pystr) (o : vout) : bool :=
  match vout_address o with
  | Some a => pystr_eqb a addr
  | None => false
  end.

(** Total value of the outputs whose destination is [addr]. *)
Definition paid_to (addr : pystr) (outs : list vout) : Z :=
  fold_right Z.add 0%Z (List.map vout_value (List.filter (pays addr) outs)).

(** Successive submissions, with their responses. *)
Fixpoint submit_all (l : list (request * env)) (st : state)
  : state * list (result response) :=
  match l with
  | [] => (st, [])
  | (rq, w) :: l' =>
      let (st1, r) := api_submit rq w st in
      let (st2, rs) := submit_all l' st1 in
      (st2, r :: rs)
  end.

(** Every later request is less than one window after every earlier one. *)
Fixpoint within_window (times : list Q) : Prop :=
  match times with
  | [] => True
  | t :: later =>
      Forall (fun t' => t' - t < RATE_LIMIT_WINDOW_S)%Q later /\ within_window later
  end.

Definition dict_keys (v : pyval) : list pystr :=
  match v with
  | PyDict d => List.map fst d
  | _ => []
  end.

Fixpoint assoc_set (k : pystr) (v : pyval) (d : list (pystr * pyval))
  : list (pystr * pyval) :=
  match d with
  | [] => []
  | (k', x) :: d' =>
      if pystr_eqb k k' then (k', v) :: d' else (k', x) :: assoc_set k v d'
  end.

(** The document [doc] with its [project.exported_iso] replaced. *)
Definition with_exported_iso (iso : pystr) (doc : pyval) : pyval :=
  match doc with
  | PyDict d =>
      match assoc (str "project") d with
      | Some (PyDict p) =>
          PyDict (assoc_set (str "project")
                    (PyDict (assoc_set (str "exported_iso") (PyStr iso) p)) d)
      | _ => doc
      end
  | _ => doc
  end.

(** The same request environment with another outcome of the file write. *)
Definition with_fs (w : env) (o : fs_outcome) : env :=
  {| time_time := time_time w; tx_http := tx_http w; geo_http := geo_http w;
     now_iso := now_iso w; export_iso := export_iso w; fs := o |}.

Definition reachable (st : state) : Prop :=
  exists trace, st = run trace fresh.

(** The geocoding lookup errs, times out, answers with another status
    than 200, or answers with an empty result. *)
Definition geocoder_fails (w : env) (city country : pystr) : Prop :=
  match geo_http w (city ++ str ", " ++ country) with
  | HttpRaise _ => True
  | HttpResp status_code json =>
      status_code <> 200%Z \/ (exists e, json = Raise e) \/ json = Ok (PyList [])
  end.

(** The attempts on record for an origin. *)
Definition hits_of (ip : pystr) (st : state) : list Q :=
  default [] (_ip_hits st !! ip).

(** The state once the rate limiter has recorded the attempt. *)
Definition record_attempt (rq : request) (w : env) (st : state) : state :=
  with_hits st (fst (rate_limited (client_ip rq) (time_time w) (_ip_hits st))).

(** The texts the [INSERT] binds can all be encoded. *)
Definition bindable (c : candidate) : bool :=
  forallb encodable
    [ f_txid (c_fields c); f_alias (c_fields c); f_city (c_fields c);
      f_country (c_fields c); c_iso_date c ].

(** The number a [REAL] column gives back for a stored [float]. *)
Definition stored_real (f : pyfloat) : pyfloat :=
  match f with
  | S754_zero _ => S754_zero false
  | _ => f
  end.

(** The amount for a total of [sats] satoshis: the total converted to a
    double and divided by the double 10^8; none when the total is
    beyond the range of the doubles. *)
Definition btc_of_sats (sats : Z) : option pyfloat :=
  match float64_of_int sats with
  | S754_infinity _ => None
  | x => Some (SFdiv 53 1024 x float_1e8)
  end.

(** An Entry of the exported list: the eight fields of a stored row,
    an alias that is [NULL] shown as the empty string. *)
Definition entry_of_row (r : row) : pyval :=
  PyDict [ (str "txid", PyStr (row_txid r));
           (str "alias", PyStr (default [] (row_alias r)));
           (str "city", PyStr (row_city r));
           (str "country", PyStr (row_country r));
           (str "lat", PyFloat (row_lat r));
           (str "lng", PyFloat (row_lng r));
           (str "amount_btc", PyFloat (row_amount_btc r));
           (str "iso_date", PyStr (row_iso_date r)) ].

(** Ascending ids. *)
Definition by_id (a b : row) : Prop := (row_id a <= row_id b)%Z.

(** The rational a finite double denotes. *)
Definition float_value (f : pyfloat) : option Q :=
  match f with
  | S754_zero _ => Some 0%Q
  | S754_finite s m e =>
      let q := if (0 <=? e)%Z then inject_Z (Zpos m * 2 ^ e)
               else (Zpos m # Z.to_pos (2 ^ (- e))) in
      Some (if s then - q else q)%Q
  | _ => None
  end.

(** The double written [0.0015]: 6917529027641082 * 2^-62. *)
Definition double_0_0015 : pyfloat :=
  S754_finite false 6917529027641082 (-62).

(** The six ways a submission ends. *)
Inductive submit_outcome (rq : request) (w : env) (st : state)
  : state * result response -> Prop :=
| Limited :
    ~ within_quota rq w st ->
    submit_outcome rq w st (record_attempt rq w st, Ok QuotaExceeded)
| Crashed e :
    within_quota rq w st -> gates rq w = Raise e ->
    submit_outcome rq w st (record_attempt rq w st, Raise e)
| Refused early :
    within_quota rq w st -> gates rq w = Ok (inl early) ->
    submit_outcome rq w st (record_attempt rq w st, Ok early)
| Conflict c :
    within_quota rq w st -> gates rq w = Ok (inr c) ->
    insert_candidate (db st) c = Raise IntegrityError ->
    submit_outcome rq w st (record_attempt rq w st, Ok Duplicate)
| Stored c t :
    within_quota rq w st -> gates rq w = Ok (inr c) ->
    insert_candidate (db st) c = Ok t ->
    submit_outcome rq w st
      (fst (export_log_json w (with_db (record_attempt rq w st) t)), Ok Accepted)
| Aborted c :
    within_quota rq w st -> gates rq w = Ok (inr c) ->
    insert_candidate (db st) c = Raise UnicodeEncodeError ->
    submit_outcome rq w st (record_attempt rq w st, Raise UnicodeEncodeError).

End Vocabulary.

(** ** A concrete deployment, for worked examples *)

Module Demo.

(** The defaults of [TM_BTC_ADDRESS] and [TM_ORIGIN_LABEL]. *)
Definition config : Config :=
  {| BTC_ADDRESS := str "bc1qexampleaddressxxxxxxxxxxxxxxxxxxxxxx";
     ORIGIN_LABEL := str "Vancouver Island, BC, Canada" |}.

Fixpoint digits (acc : Z) (n : nat) (s : pystr) : option (Z * nat) :=
  match s with
  | [] => Some (acc, n)
  | c :: r =>
      if ((48 <=? c) && (c <=? 57))%N
      then digits (10 * acc + (Z.of_N c - 48)) (S n) r
      else None
  end.

Definition unsigned_int (s : pystr) : option Z :=
  match s with
  | [] => None
  | _ => option_map fst (digits 0 0 s)
  end.

Fixpoint split_dot (s : pystr) : pystr * option pystr :=
  match s with
  | [] => ([], None)
  | c :: r =>
      if (c =? 46)%N then ([], Some r)
      else let (a, b) := split_dot r in (c :: a, b)
  end.

(** A decimal numeral whose digits, read as an integer, and whose power
    of ten are doubles: their quotient, rounded once, is the double the
    numeral denotes. *)
Definition unsigned_decimal (s : pystr) : option pyfloat :=
  if bool_decide (s = str "nan") then Some S754_nan else
  match split_dot s with
  | (a, None) => option_map float64_of_int (unsigned_int a)
  | (a, Some b) =>
      match unsigned_int a, digits 0 0 b with
      | Some i, Some (f, n) =>
          let num := (i * 10 ^ Z.of_nat n + f)%Z in
          if (n <=? 22)%nat && (num <? 2 ^ 53)%Z
          then Some (SFdiv 53 1024 (float64_of_int num)
                       (float64_of_int (10 ^ Z.of_nat n)))
          else None
      | _, _ => None
      end
  end.

Definition signed {A} (neg : A -> A) (p : pystr -> option A) (s : pystr)
  : option A :=
  match s with
  | 45%N :: r => option_map neg (p r)
  | _ => p s
  end.

(** Plain decimal numerals and [nan], a fragment of what [int] and
    [float] read. *)
Definition builtins : Builtins :=
  {| int_of_str := signed Z.opp unsigned_int;
     float_of_str := signed SFopp unsigned_decimal |}.

#[local] Existing Instance config.
#[local] Existing Instance builtins.

Definition txid_a : pystr := repeat 97%N 64.

Definition body (txid alias city country : pystr) : pyval :=
  PyDict [ (str "txid", PyStr txid); (str "alias", PyStr alias);
           (str "city", PyStr city); (str "country", PyStr country) ].

Definition from (ip : string) (json : pyval) : request :=
  {| x_forwarded_for := None; remote_addr := Some (str ip); get_json := json |}.

Definition nanaimo : request :=
  from "203.0.113.7" (body txid_a (str "sam") (str "Nanaimo") (str "Canada")).

(** One output of 150000 satoshis to the project address. *)
Definition tx_reply : http_reply :=
  HttpResp 200 (Ok (PyDict
    [ (str "txid", PyStr txid_a);
      (str "vout", PyList
         [ PyDict [ (str "scriptpubkey_address", PyStr BTC_ADDRESS);
                    (str "value", PyInt 150000) ] ]) ])).

Definition geo_reply : http_reply :=
  HttpResp 200 (Ok (PyList
    [ PyDict [ (str "lat", PyStr (str "49.1659"));
               (str "lon", PyStr (str "-123.9401")) ] ])).

(** Both fact-sources answer; the clock reads [t] seconds. *)
Definition world (t : Q) : env :=
  {| time_time := t;
     tx_http := fun _ => tx_reply;
     geo_http := fun _ => geo_reply;
     now_iso := str "2024-05-01T12:00:00Z";
     export_iso := str "2024-05-01T12:00:01Z";
     fs := WriteOk |}.

(** The transaction fact-source is unreachable. *)
Definition world_tx_down (t : Q) : env :=
  {| time_time := t;
     tx_http := fun _ => HttpRaise RequestException;
     geo_http := fun _ => geo_reply;
     now_iso := str "2024-05-01T12:00:10Z";
     export_iso := str "2024-05-01T12:00:11Z";
     fs := WriteOk |}.

Definition first_try : state * result response :=
  api_submit nanaimo (world 1000) fresh.




(** The txid of [nanaimo] written with capital letters. *)
Definition upper_case : request :=
  from "203.0.113.7"
    (body (repeat 65%N 64) (str "sam") (str "Nanaimo") (str "Canada")).

Definition upper_case_try : state * result response :=
  api_submit upper_case (world 1010) (fst first_try).

(** A body whose txid is a JSON number. *)
Definition number_txid : request :=
  from "203.0.113.7"
    (PyDict [ (str "txid", PyInt 7); (str "city", PyStr (str "Nanaimo"));
              (str "country", PyStr (str "Canada")) ]).

(** A request whose txid is not 64 hexadecimal characters. *)
Definition bad_txid : request :=
  from "203.0.113.7" (body (str "xyz") (str "sam") (str "Nanaimo") (str "Canada")).

Definition ticks (n : nat) : list Q :=
  List.map (fun k => inject_Z (Z.of_nat k)) (List.seq 0 n).

(** Twelve requests of one origin, one second apart. *)
Definition twelve_bad : list (request * env) :=
  List.map (fun t => (bad_txid, world t)) (ticks 12).

Definition thirteenth_bad : state * result response :=
  api_submit bad_txid (world 12) (fst (submit_all twelve_bad fresh)).

Definition thirteen : list (request * env) :=
  List.map (fun t => (nanaimo, world t)) (ticks 13).

(** A city field of 65 characters; the 60th is the space after the comma. *)
Definition long_city : pystr :=
  str "Llanfairpwllgwyngyllgogerychwyrndrobwllllantysiliogogogoch, Wales".

Definition long_place : request :=
  from "203.0.113.7" (body txid_a (str "") long_city (str "United Kingdom")).

Definition long_place_try : state * result response :=
  api_submit long_place (world 1000) fresh.

(** The body of [nanaimo] with an alias that is one lone surrogate,
    the JSON string ["\ud800"]. *)
Definition surrogate_alias : request :=
  from "203.0.113.7" (body txid_a [55296%N] (str "Nanaimo") (str "Canada")).

Definition surrogate_try : state * result response :=
  api_submit surrogate_alias (world 1010) (fst first_try).

(** One output of 2^1024 satoshis to the project address. *)
Definition huge_tx : pyval :=
  PyDict
    [ (str "txid", PyStr txid_a);
      (str "vout", PyList
         [ PyDict [ (str "scriptpubkey_address", PyStr BTC_ADDRESS);
                    (str "value", PyInt (2 ^ 1024)) ] ]) ].

Definition world_huge (t : Q) : env :=
  {| time_time := t;
     tx_http := fun _ => HttpResp 200 (Ok huge_tx);
     geo_http := fun _ => geo_reply;
     now_iso := str "2024-05-01T12:00:00Z";
     export_iso := str "2024-05-01T12:00:01Z";
     fs := WriteOk |}.

(** The geocoder answers with a latitude that is not a number. *)
Definition world_nan (t : Q) : env :=
  {| time_time := t;
     tx_http := fun _ => tx_reply;
     geo_http := fun _ =>
       HttpResp 200 (Ok (PyList
         [ PyDict [ (str "lat", PyStr (str "nan"));
                    (str "lon", PyStr (str "-123.9401")) ] ]));
     now_iso := str "2024-05-01T12:00:00Z";
     export_iso := str "2024-05-01T12:00:01Z";
     fs := WriteOk |}.

(** The geocoder answers with the latitude [-0.0]. *)
Definition world_minus_zero (t : Q) : env :=
  {| time_time := t;
     tx_http := fun _ => tx_reply;
     geo_http := fun _ =>
       HttpResp 200 (Ok (PyList
         [ PyDict [ (str "lat", PyStr (str "-0.0"));
                    (str "lon", PyStr (str "-123.9401")) ] ]));
     now_iso := str "2024-05-01T12:00:00Z";
     export_iso := str "2024-05-01T12:00:01Z";
     fs := WriteOk |}.

End Demo.

(** * The rest of the server *)

(** ** [utc_now_iso] *)

(** A [datetime] in UTC, as [datetime.now(timezone.utc)] returns it. *)
Record datetime := {
  year : Z;
  month : Z;
  day : Z;
  hour : Z;
  minute : Z;
  second : Z;
  microsecond : Z
}.

(** [dt.replace(microsecond=us)] *)
Definition replace_microsecond (dt : datetime) (us : Z) : datetime :=
  {| year := year dt; month := month dt; day := day dt; hour := hour dt;
     minute := minute dt; second := second dt; microsecond := us |}.

Fixpoint decimal_aux (fuel : nat) (z : Z) (acc : pystr) : pystr :=
  match fuel with
  | O => acc
  | S fuel' =>
      let acc' := Z.to_N (48 + z mod 10) :: acc in
      if (z / 10 =? 0)%Z then acc' else decimal_aux fuel' (z / 10) acc'
  end.

(** The decimal digits of a non-negative integer. *)
Definition decimal (z : Z) : pystr :=
  decimal_aux (S (Z.to_nat (Z.log2 z))) z [].

(** ["%0<width>d" % z] for a non-negative [z] *)
Definition fmt_d (width : nat) (z : Z) : pystr :=
  let s := decimal z in
  repeat 48%N (width - length s) ++ s.

(** [dt.isoformat()] of a datetime whose offset is zero. *)
Definition isoformat (dt : datetime) : pystr :=
  fmt_d 4 (year dt) ++ str "-" ++ fmt_d 2 (month dt) ++ str "-" ++
  fmt_d 2 (day dt) ++ str "T" ++ fmt_d 2 (hour dt) ++ str ":" ++
  fmt_d 2 (minute dt) ++ str ":" ++ fmt_d 2 (second dt) ++
  (if (microsecond dt =? 0)%Z then [] else str "." ++ fmt_d 6 (microsecond dt)) ++
  str "+00:00".

Fixpoint is_prefix (p s : pystr) : bool :=
  match p, s with
  | [], _ => true
  | a :: p', b :: s' => (a =? b)%N && is_prefix p' s'
  | _ :: _, [] => false
  end.

(** [s.replace(old, new)] for a non-empty [old]: the scan replaces each
    occurrence it meets and resumes after it; [skip] counts the characters
    of a replaced occurrence still to pass. *)
Fixpoint str_replace (old new s : pystr) (skip : nat) : pystr :=
  match s with
  | [] => []
  | c :: r =>
      match skip with
      | S k => str_replace old new r k
      | O =>
          if is_prefix old s
          then new ++ str_replace old new r (length old - 1)
          else c :: str_replace old new r 0
      end
  end.

Definition utc_now_iso (now : datetime) : pystr :=
  str_replace (str "+00:00") (str "Z")
    (isoformat (replace_microsecond now 0)) 0.

(** ** The database file and [init_db] *)

(** The two tables of [travel.db]; each may not exist yet. *)
Record database := {
  entries_table : option table;
  meta_table : option (gmap pystr pystr)
}.

(** [INSERT OR IGNORE INTO meta (k, v) VALUES (?, ?)]: a row whose
    primary key is taken is left alone. *)
Definition insert_or_ignore (k v : pystr) (m : gmap pystr pystr)
  : gmap pystr pystr :=
  match m !! k with
  | Some _ => m
  | None => <[k := v]> m
  end.

Section RestOfServer.

Context {cfg : Config} {py : Builtins}.

(** The four statements of [init_db] and the [commit]: both tables
    exist afterwards, and each of the two [meta] rows is inserted unless
    its key is there. *)
Definition create_and_seed (d : database) : database :=
  (* [CREATE TABLE IF NOT EXISTS] twice *)
  let entries := default empty_table (entries_table d) in
  let meta := default ∅ (meta_table d) in
  let meta := insert_or_ignore (str "btc_address") BTC_ADDRESS meta in
  let meta := insert_or_ignore (str "origin_label") ORIGIN_LABEL meta in
  {| entries_table := Some entries; meta_table := Some meta |}.

(** [init_db]; [storage] is the outcome of [os.makedirs] and
    [sqlite3.connect], which come before the first statement. *)
Definition init_db (storage : result unit) (d : database) : result database :=
  let* _ := storage in
  Ok (create_and_seed d).

(** [main], up to [app.run]: the database is initialised, the log is
    exported and the port is read from [PORT]; no exception is caught
    here. The result is the database and the file [main] leaves, and
    either the exception that ends it or the state the handlers start
    from with the port. *)
Definition main (w : env) (storage : result unit) (port_env : option pystr)
    (d : database) (f : file)
  : database * file * result (state * Z) :=
  match init_db storage d with
  | Raise e => (d, f, Raise e)
  | Ok d1 =>
      let st0 := {| _ip_hits := ∅;
                    db := default empty_table (entries_table d1);
                    log_json := f |} in
      let (st, r) := export_log_json w st0 in
      (d1, log_json st,
       let* _ := r in
       let* port := py_int (PyStr (default (str "8080") port_env)) in
       Ok (st, port))
  end.

(** ** Address balance and [GET /api/stats] *)

Record stats_env := {
  addr_http : pystr -> http_reply;   (* address lookup, by address *)
  stats_iso : pystr                  (* [utc_now_iso()] of the handler *)
}.

Definition address_balance_btc (w : stats_env) (addr : pystr)
  : result (option pyfloat) :=
  match addr_http w addr with
  | HttpRaise e => Raise e
  | HttpResp status_code json =>
      if negb (status_code =? 200)%Z then Ok None else
      let* j := json in
      let* chain := py_get j (str "chain_stats") (PyDict []) in
      let* mem := py_get j (str "mempool_stats") (PyDict []) in
      let* v1 := py_get chain (str "funded_txo_sum") (PyInt 0) in
      let* n1 := py_int v1 in
      let* v2 := py_get mem (str "funded_txo_sum") (PyInt 0) in
      let* n2 := py_int v2 in
      let funded := (n1 + n2)%Z in
      let* v3 := py_get chain (str "spent_txo_sum") (PyInt 0) in
      let* n3 := py_int v3 in
      let* v4 := py_get mem (str "spent_txo_sum") (PyInt 0) in
      let* n4 := py_int v4 in
      let spent := (n3 + n4)%Z in
      let* balance := int_truediv_float (funded - spent) float_1e8 in
      Ok (Some balance)
  end.

(** [None] of Python, or a [float]. *)
Definition py_optional_float (v : option pyfloat) : pyval :=
  match v with
  | Some f => PyFloat f
  | None => PyNone
  end.

Definition api_stats (w : stats_env) : pyval :=
  let bal := try_except (address_balance_btc w BTC_ADDRESS) None in
  PyDict [ (str "btc_address", PyStr BTC_ADDRESS);
           (str "origin_label", PyStr ORIGIN_LABEL);
           (str "balance_btc", py_optional_float bal);
           (str "iso_date", PyStr (stats_iso w)) ].

End RestOfServer.

(** ** Vocabulary for the further properties *)

(** Every whitespace character of [s] is U+0020. *)
Definition only_spaces (s : pystr) : bool :=
  forallb (fun c => negb (isspace c) || (c =? SPACE)%N) s.

(** The characters of [s] that are not whitespace. *)
Definition non_ws (s : pystr) : pystr :=
  List.filter (fun c => negb (isspace c)) s.

Section VocabularyMore.

Context {cfg : Config} {py : Builtins}.

(** The gates stop the request: an early [return] or an exception. *)
Definition stopped_by_gates (rq : request) (w : env) : Prop :=
  match gates rq w with
  | Ok (inr _) => False
  | _ => True
  end.

(** A response with status 200. *)
Definition is_accepted (r : result response) : bool :=
  match r with
  | Ok (_, code) => (code =? 200)%Z
  | Raise _ => false
  end.

(** The document an export writes for the rows [l]. *)
Definition document_of_rows (exported_iso : pystr) (l : list row) : pyval :=
  PyDict [ (str "project", project_json exported_iso);
           (str "entries", PyList (List.map entry_of_row l)) ].


(** The row stored for the sanitized fields [f] and three numbers. *)
Definition row_of (id : Z) (f : fields) (lat lng amount : pyfloat) (iso : pystr)
  : row :=
  {| row_id := id; row_txid := f_txid f; row_alias := Some (f_alias f);
     row_city := f_city f; row_country := f_country f;
     row_lat := stored_real lat; row_lng := stored_real lng;
     row_amount_btc := stored_real amount; row_iso_date := iso |}.

End VocabularyMore.

Section VocabularyFacts.

Context {cfg : Config} {py : Builtins}.

(** A decoded output object of which only what the loop reads is
    constrained: its address, and its value if it pays [addr] (a missing
    value stands for zero). *)
Definition loose_vout (addr : pystr) (j : pyval) (o : vout) : Prop :=
  exists d, j = PyDict d /\
    match vout_address o with
    | Some a => assoc (str "scriptpubkey_address") d = Some (PyStr a)
    | None => assoc (str "scriptpubkey_address") d = None \/
              assoc (str "scriptpubkey_address") d = Some PyNone
    end /\
    (pays addr o = true ->
     assoc (str "value") d = Some (PyInt (vout_value o)) \/
     (assoc (str "value") d = None /\ vout_value o = 0%Z)).

(** The integer the balance computation reads at [section.key] of the
    reply [j]; a missing section or key stands for zero. *)
Definition stat (j : list (pystr * pyval)) (section key : pystr) (v : Z) : Prop :=
  match assoc section j with
  | None => v = 0%Z
  | Some (PyDict d) =>
      match assoc key d with
      | None => v = 0%Z
      | Some (PyInt z) => v = z
      | Some _ => False
      end
  | Some _ => False
  end.

(** The address lookup errs, or answers with another status than 200, or
    with a body that does not decode. *)
Definition balance_lookup_fails (w : stats_env) : Prop :=
  match addr_http w BTC_ADDRESS with
  | HttpRaise _ => True
  | HttpResp status_code json => status_code <> 200%Z \/ exists e, json = Raise e
  end.

(** What the first geocoding candidate yields. *)
Definition first_candidate (first : pyval) : option (pyfloat * pyfloat) :=
  match first with
  | PyDict d =>
      match assoc (str "lat") d with
      | Some la =>
          match py_float la with
          | Ok lat =>
              match assoc (str "lon") d with
              | Some lo =>
                  match py_float lo with
                  | Ok lon => Some (lat, lon)
                  | Raise _ => None
                  end
              | None => None
              end
          | Raise _ => None
          end
      | None => None
      end
  | _ => None
  end.

(** The ranges of the fields of a [datetime]. *)
Definition datetime_ok (dt : datetime) : Prop :=
  (1 <= year dt <= 9999 /\ 1 <= month dt <= 12 /\ 1 <= day dt <= 31 /\
   0 <= hour dt <= 23 /\ 0 <= minute dt <= 59 /\ 0 <= second dt <= 59 /\
   0 <= microsecond dt <= 999999)%Z.

End VocabularyFacts.

(** The character of a decimal digit, and integers written on two and on
    four digits. *)
Definition digit_char (x : Z) : N := Z.to_N (48 + x).

Definition two_digits (z : Z) : pystr :=
  [ digit_char (z / 10); digit_char (z mod 10) ].

Definition four_digits (z : Z) : pystr :=
  [ digit_char (z / 1000); digit_char (z / 100 mod 10);
    digit_char (z / 10 mod 10); digit_char (z mod 10) ].

(** ** Further worked cases *)

Module Cases.

#[local] Existing Instance Demo.config.
#[local] Existing Instance Demo.builtins.

(** The request of [Demo.bad_txid] with an [X-Forwarded-For] header. *)
Definition forwarded_for (k : nat) : request :=
  {| x_forwarded_for := Some (str "198.51.100." ++ decimal (Z.of_nat k));
     remote_addr := Some (str "203.0.113.7");
     get_json := get_json Demo.bad_txid |}.

(** Forty requests at the same instant, each with another header. *)
Definition rotating : list (request * env) :=
  List.map (fun k => (forwarded_for k, Demo.world 0)) (List.seq 1 40).

(** A reply with two outputs: one to another address whose value is not
    a number, one to the project address without a value. *)
Definition odd_outputs : list pyval :=
  [ PyDict [ (str "scriptpubkey_address", PyStr (str "bc1qother"));
             (str "value", PyStr (str "n/a")) ];
    PyDict [ (str "scriptpubkey_address", PyStr BTC_ADDRESS) ] ].

Definition world_odd_outputs : env :=
  {| time_time := 0;
     tx_http := fun _ => HttpResp 200 (Ok (PyDict [ (str "vout", PyList odd_outputs) ]));
     geo_http := fun _ => Demo.geo_reply;
     now_iso := str "2024-05-01T12:00:00Z";
     export_iso := str "2024-05-01T12:00:01Z";
     fs := WriteOk |}.

(** A geocoder whose first candidate has no longitude; a complete
    candidate follows. *)
Definition world_first_incomplete : env :=
  {| time_time := 0;
     tx_http := fun _ => Demo.tx_reply;
     geo_http := fun _ =>
       HttpResp 200 (Ok (PyList
         [ PyDict [ (str "lat", PyStr (str "49.1659")) ];
           PyDict [ (str "lat", PyStr (str "49.1659"));
                    (str "lon", PyStr (str "-123.9401")) ] ]));
     now_iso := str "2024-05-01T12:00:00Z";
     export_iso := str "2024-05-01T12:00:01Z";
     fs := WriteOk |}.

(** An address with confirmed funds only; the reply has no mempool
    section. *)
Definition stats_world : stats_env :=
  {| addr_http := fun _ =>
       HttpResp 200 (Ok (PyDict
         [ (str "chain_stats",
            PyDict [ (str "funded_txo_sum", PyInt 250000);
                     (str "spent_txo_sum", PyInt 100000) ]) ]));
     stats_iso := str "2024-05-01T12:00:00Z" |}.

(** An address whose funded total is 2^1024 satoshis. *)
Definition stats_world_huge : stats_env :=
  {| addr_http := fun _ =>
       HttpResp 200 (Ok (PyDict
         [ (str "chain_stats",
            PyDict [ (str "funded_txo_sum", PyInt (2 ^ 1024)) ]) ]));
     stats_iso := str "2024-05-01T12:00:00Z" |}.

Definition stats_world_down : stats_env :=
  {| addr_http := fun _ => HttpRaise RequestException;
     stats_iso := str "2024-05-01T12:00:00Z" |}.

(** A database initialised earlier under another address. *)
Definition other_config : Config :=
  {| BTC_ADDRESS := str "bc1qearlier"; ORIGIN_LABEL := str "Elsewhere" |}.

Definition no_database : database :=
  {| entries_table := None; meta_table := None |}.

Definition noon : datetime :=
  {| year := 2024; month := 5; day := 1; hour := 12; minute := 0;
     second := 7; microsecond := 123456 |}.

End Cases.

(** ** Numbers in the table *)

(** A number as a [REAL NOT NULL] column holds it: not NaN, and a zero
    without sign. *)
Definition real_ok (x : pyfloat) : Prop :=
  is_nan x = false /\ x <> S754_zero true.

Definition row_numbers (r : row) : Prop :=
  real_ok (row_lat r) /\ real_ok (row_lng r) /\ real_ok (row_amount_btc r).

(** * Properties *)

(** ** Sanitizer *)

Section SanitizerFacts.

Implicit Types (s t : pystr) (c : N) (b : bool).

Lemma rstrip_cons c s :
  rstrip (c :: s) =
  match rstrip s with
  | [] => if isspace c then [] else [c]
  | _ => c :: rstrip s
  end.
Proof. reflexivity. Qed.

Lemma ends_ws_cons c s : s <> [] -> ends_ws (c :: s) = ends_ws s.
Proof. destruct s; [congruence | reflexivity]. Qed.

Lemma lstrip_decomp s :
  exists l, s = l ++ lstrip s /\ forallb isspace l = true.
Proof.
  induction s as [|c s [l [Hs Hl]]]; simpl.
  - exists []; auto.
  - destruct (isspace c) eqn:Hc.
    + exists (c :: l); simpl. rewrite Hc, Hl. split; [f_equal; exact Hs | reflexivity].
    + exists []; auto.
Qed.

Lemma lstrip_starts s : starts_ws (lstrip s) = false.
Proof.
  induction s as [|c s IH]; simpl; auto.
  destruct (isspace c) eqn:Hc; simpl; auto.
Qed.

Lemma rstrip_decomp s :
  exists r, s = rstrip s ++ r /\ forallb isspace r = true.
Proof.
  induction s as [|c s [r [Hs Hr]]].
  - exists []; auto.
  - rewrite rstrip_cons. destruct (rstrip s) as [|d u] eqn:Hu.
    + simpl in Hs. subst r. destruct (isspace c) eqn:Hc.
      * exists (c :: s); simpl. rewrite Hc, Hr. auto.
      * exists s; auto.
    + exists r. split; auto. simpl in Hs |- *. f_equal. exact Hs.
Qed.

Lemma rstrip_ends s : ends_ws (rstrip s) = false.
Proof.
  induction s as [|c s IH]; auto.
  rewrite rstrip_cons. destruct (rstrip s) as [|d u] eqn:Hu.
  - destruct (isspace c) eqn:Hc; simpl; auto.
  - rewrite ends_ws_cons by discriminate. exact IH.
Qed.

Lemma rstrip_starts s : starts_ws s = false -> starts_ws (rstrip s) = false.
Proof.
  destruct s as [|c s]; auto. intros Hc. simpl in Hc.
  rewrite rstrip_cons. destruct (rstrip s); [rewrite Hc|]; simpl; auto.
Qed.

(** [strip] removes a block of whitespace at each end and leaves a string
    that neither starts nor ends with whitespace. *)
Lemma strip_spec s :
  exists l r, s = l ++ strip s ++ r /\
    forallb isspace l = true /\ forallb isspace r = true /\
    starts_ws (strip s) = false /\ ends_ws (strip s) = false.
Proof.
  destruct (lstrip_decomp s) as [l [Hl Hlw]].
  destruct (rstrip_decomp (lstrip s)) as [r [Hr Hrw]].
  exists l, r. unfold strip. repeat split; auto.
  - rewrite <- Hr. exact Hl.
  - apply rstrip_starts, lstrip_starts.
  - apply rstrip_ends.
Qed.

Lemma split_ws_skip_left l s :
  forallb isspace l = true -> split_ws (l ++ s) = split_ws s.
Proof.
  induction l as [|c l IH]; simpl; auto.
  intros H. apply andb_true_iff in H as [Hc Hl]. rewrite Hc. auto.
Qed.

Lemma split_ws_blank r : forallb isspace r = true -> split_ws r = [].
Proof.
  intros H. rewrite <- (app_nil_r r). now rewrite split_ws_skip_left.
Qed.

Lemma split_ws_skip_right s r :
  forallb isspace r = true -> split_ws (s ++ r) = split_ws s.
Proof.
  intros Hr. induction s as [|c s IH]; simpl.
  - now apply split_ws_blank.
  - destruct (isspace c); auto. rewrite IH.
    destruct s as [|d s]; [|reflexivity].
    simpl. destruct (split_ws r); reflexivity.
Qed.

Lemma split_ws_nil s : split_ws s = [] -> ends_ws s = false -> s = [].
Proof.
  induction s as [|c s IH]; auto. simpl split_ws.
  destruct (isspace c) eqn:Hc.
  - intros Hs He. destruct s as [|d s].
    + simpl in He. congruence.
    + rewrite ends_ws_cons in He by discriminate. specialize (IH Hs He).
      discriminate.
  - destruct (split_ws s); [|destruct (starts_ws s)]; discriminate.
Qed.

(** On a string without trailing whitespace the scan of [re.sub] joins
    the words with single spaces. *)
Lemma re_sub_ws_words s :
  ends_ws s = false ->
  re_sub_ws true s = join_sp (split_ws s) /\
  re_sub_ws false s =
    (if starts_ws s then SPACE :: join_sp (split_ws s)
     else join_sp (split_ws s)).
Proof.
  induction s as [|c s IH]; [auto|].
  intros He. simpl re_sub_ws. simpl split_ws. simpl starts_ws.
  destruct s as [|d s].
  - simpl in He. rewrite He. auto.
  - rewrite ends_ws_cons in He by discriminate.
    destruct (IH He) as [IHt IHf]. clear IH.
    destruct (isspace c) eqn:Hc.
    + rewrite IHt. auto.
    + rewrite IHf.
      destruct (split_ws (d :: s)) as [|w ws] eqn:Hw.
      * apply split_ws_nil in Hw; [discriminate | assumption].
      * destruct (starts_ws (d :: s)); [auto|].
        destruct ws; auto.
Qed.

Lemma re_sub_ws_strip s :
  re_sub_ws false (strip s) = join_sp (split_ws (strip s)).
Proof.
  destruct (strip_spec s) as (l & r & _ & _ & _ & Hst & Hen).
  destruct (re_sub_ws_words _ Hen) as [_ H]. now rewrite Hst in H.
Qed.

Lemma split_ws_strip s : split_ws (strip s) = split_ws s.
Proof.
  destruct (strip_spec s) as (l & r & Hs & Hl & Hr & _).
  rewrite Hs at 2. rewrite split_ws_skip_left by assumption.
  now rewrite split_ws_skip_right.
Qed.

Lemma slice_to_nonneg n s :
  (0 <= n)%Z -> slice_to n s = firstn (Z.to_nat n) s.
Proof. intros H. unfold slice_to. now apply Z.leb_le in H as ->. Qed.

Lemma sanitize_text_str s n :
  sanitize_text (PyStr s) n = Ok (slice_to n (re_sub_ws false (strip s))).
Proof.
  unfold sanitize_text, or_empty_strip, py_or. simpl truthy.
  destruct s; reflexivity.
Qed.

End SanitizerFacts.

(** C9. The sanitizer, on any string [s] and any maximum length: [s] is
    a block of whitespace [l], a body [t] that neither starts nor ends
    with whitespace, and a block of whitespace [r] (the trim); the result
    is the words of [t] joined by single spaces (the collapse of every
    inner run), cut to its first [max_len] characters (the truncation,
    applied last). The call always returns, and an absent input gives
    the empty string. *)
Theorem sanitize_text_spec (s : pystr) (max_len : Z) :
  (0 <= max_len)%Z ->
  (exists l t r,
      s = l ++ t ++ r /\
      forallb isspace l = true /\ forallb isspace r = true /\
      starts_ws t = false /\ ends_ws t = false /\
      sanitize_text (PyStr s) max_len =
        Ok (firstn (Z.to_nat max_len) (join_sp (split_ws t)))) /\
  sanitize_text PyNone max_len = Ok [].
Proof.
  intros Hn. split.
  - destruct (strip_spec s) as (l & r & Hs & Hl & Hr & Hst & Hen).
    exists l, (strip s), r. repeat split; auto.
    rewrite sanitize_text_str, slice_to_nonneg by assumption.
    now rewrite re_sub_ws_strip.
  - unfold sanitize_text. simpl. rewrite slice_to_nonneg by assumption.
    now rewrite firstn_nil.
Qed.

Lemma sanitize_text_spec_witness :
  (0 <= 5)%Z /\
  ((exists l t r,
       str "  New   York  " = l ++ t ++ r /\
       forallb isspace l = true /\ forallb isspace r = true /\
       starts_ws t = false /\ ends_ws t = false /\
       sanitize_text (PyStr (str "  New   York  ")) 5 =
         Ok (firstn (Z.to_nat 5) (join_sp (split_ws t)))) /\
   sanitize_text PyNone 5 = Ok []).
Proof. split; [lia | apply sanitize_text_spec; lia]. Defined.

(** The result in one formula: [" ".join(s.split())[:max_len]]. *)
Lemma sanitize_text_words (s : pystr) (max_len : Z) :
  (0 <= max_len)%Z ->
  sanitize_text (PyStr s) max_len =
    Ok (firstn (Z.to_nat max_len) (join_sp (split_ws s))).
Proof.
  intros Hn. rewrite sanitize_text_str, slice_to_nonneg by assumption.
  now rewrite re_sub_ws_strip, split_ws_strip.
Qed.

Example sanitize_text_collapse :
  sanitize_text (PyStr (str "  New   York  ")) 60 = Ok (str "New York").
Proof. reflexivity. Qed.

(** Truncation comes last, so a cut just after a word leaves its space. *)
Example sanitize_text_cut_after_space :
  sanitize_text (PyStr (str "a  b")) 2 = Ok (str "a ").
Proof. reflexivity. Qed.

(** A negative [max_len] is a slice bound counted from the end. *)
Example sanitize_text_negative_len :
  sanitize_text (PyStr (str "abc")) (-1) = Ok (str "ab").
Proof. reflexivity. Qed.

(** A JSON number has no [strip] method. *)
Example sanitize_text_number : sanitize_text (PyInt 7) 64 = Raise AttributeError.
Proof. reflexivity. Qed.

(** ** Shape of a sanitized string *)

Section SanitizedShape.

Implicit Types (s : pystr) (c : N) (b : bool) (n : nat).

Lemma re_sub_ws_true_starts s : starts_ws (re_sub_ws true s) = false.
Proof.
  induction s as [|c s IH]; simpl; auto.
  destruct (isspace c) eqn:Hc; simpl; auto.
Qed.

Lemma re_sub_ws_no_double b s : no_double_ws (re_sub_ws b s) = true.
Proof.
  revert b. induction s as [|c s IH]; intros b; simpl; auto.
  destruct (isspace c) eqn:Hc.
  - destruct b; auto. simpl. rewrite re_sub_ws_true_starts, IH.
    reflexivity.
  - simpl. now rewrite Hc, IH.
Qed.

Lemma re_sub_ws_false_starts s :
  starts_ws (re_sub_ws false s) = starts_ws s.
Proof. destruct s as [|c s]; simpl; auto. destruct (isspace c) eqn:Hc; auto. Qed.

Lemma re_sub_ws_nil b s : re_sub_ws b s = [] -> ends_ws s = false -> s = [].
Proof.
  revert b. induction s as [|c s IH]; intros b; auto. simpl re_sub_ws.
  destruct (isspace c) eqn:Hc; [destruct b|]; try discriminate.
  intros Hs He. destruct s as [|d s].
  - simpl in He. congruence.
  - rewrite ends_ws_cons in He by discriminate.
    specialize (IH _ Hs He). discriminate.
Qed.

Lemma re_sub_ws_ends b s : ends_ws s = false -> ends_ws (re_sub_ws b s) = false.
Proof.
  revert b. induction s as [|c s IH]; intros b He; auto.
  destruct s as [|d s].
  - simpl in *. rewrite He. simpl. exact He.
  - rewrite ends_ws_cons in He by discriminate.
    assert (Hne : forall b', re_sub_ws b' (d :: s) <> []).
    { intros b' H. apply re_sub_ws_nil in H; [discriminate | assumption]. }
    change (re_sub_ws b (c :: d :: s)) with
      (if isspace c
       then (if b then re_sub_ws true (d :: s)
             else SPACE :: re_sub_ws true (d :: s))
       else c :: re_sub_ws false (d :: s)).
    destruct (isspace c); [destruct b|]; auto;
      rewrite ends_ws_cons by apply Hne; auto.
Qed.

Lemma firstn_starts n s : starts_ws s = false -> starts_ws (firstn n s) = false.
Proof. destruct n, s; simpl; auto. Qed.

Lemma firstn_no_double n s :
  no_double_ws s = true -> no_double_ws (firstn n s) = true.
Proof.
  revert n. induction s as [|c s IH]; intros [|n]; simpl; auto.
  intros H. apply andb_true_iff in H as [Hc Hs]. rewrite IH by assumption.
  rewrite andb_true_r. destruct (isspace c); auto. simpl in *.
  destruct n, s; simpl in *; auto.
Qed.

Lemma firstn_ends n s :
  ends_ws s = false -> ends_ws (firstn n s) = true -> length (firstn n s) = n.
Proof.
  intros Hs Hn. destruct (le_lt_dec (length s) n) as [Hle|Hlt].
  - rewrite firstn_all2 in Hn by assumption. congruence.
  - apply firstn_length_le. lia.
Qed.

(** What [sanitize_text] leaves of a string, for a positive bound. *)
Lemma sanitize_text_shape (v : pyval) (max_len : Z) (out : pystr) :
  (0 <= max_len)%Z ->
  sanitize_text v max_len = Ok out ->
  (length out <= Z.to_nat max_len)%nat /\ starts_ws out = false /\
  no_double_ws out = true /\
  (ends_ws out = true -> length out = Z.to_nat max_len).
Proof.
  intros Hn. unfold sanitize_text, or_empty_strip.
  destruct (py_or v (PyStr [])) as [| | | |t| |]; simpl; try discriminate.
  intros [= <-]. rewrite slice_to_nonneg by assumption.
  destruct (strip_spec t) as (l & r & _ & _ & _ & Hst & Hen).
  repeat split.
  - apply firstn_le_length.
  - apply firstn_starts. now rewrite re_sub_ws_false_starts.
  - apply firstn_no_double, re_sub_ws_no_double.
  - apply firstn_ends. now apply re_sub_ws_ends.
Qed.

End SanitizedShape.

(** ** The handler, case by case *)

Section Handler.

Context {cfg : Config} {py : Builtins}.

Lemma sqlite_real_cases (f : pyfloat) :
  sqlite_real f = if is_nan f then None else Some (stored_real f).
Proof. destruct f; reflexivity. Qed.

(** The three ways an [INSERT] ends. *)
Lemma db_insert_cases t txid alias city country lat lng amount iso :
  (forallb encodable [txid; alias; city; country; iso] = false /\
   db_insert t txid alias city country lat lng amount iso =
     Raise UnicodeEncodeError)
  \/
  (forallb encodable [txid; alias; city; country; iso] = true /\
   (is_nan lat || is_nan lng || is_nan amount = true \/
    In txid (List.map row_txid (rows t))) /\
   db_insert t txid alias city country lat lng amount iso = Raise IntegrityError)
  \/
  (forallb encodable [txid; alias; city; country; iso] = true /\
   is_nan lat || is_nan lng || is_nan amount = false /\
   ~ In txid (List.map row_txid (rows t)) /\
   db_insert t txid alias city country lat lng amount iso =
     Ok {| rows := rows t ++
             [ {| row_id := seq t + 1; row_txid := txid;
                  row_alias := Some alias; row_city := city;
                  row_country := country; row_lat := stored_real lat;
                  row_lng := stored_real lng;
                  row_amount_btc := stored_real amount;
                  row_iso_date := iso |} ];
           seq := seq t + 1 |}).
Proof.
  unfold db_insert. rewrite !sqlite_real_cases.
  destruct (forallb encodable _) eqn:Henc; [right | left; auto].
  cbn [negb].
  destruct (is_nan lat); [left; auto|].
  destruct (is_nan lng); [left; auto|].
  destruct (is_nan amount); [left; auto|].
  cbn [orb].
  destruct (existsb _ (rows t)) eqn:Hex; [left | right]; repeat split; auto.
  - right. apply existsb_exists in Hex as (r & Hr & Heq).
    apply bool_decide_eq_true in Heq. subst txid. now apply in_map.
  - intros Hin. apply in_map_iff in Hin as (r & Heq & Hr).
    assert (existsb (fun r => pystr_eqb (row_txid r) txid) (rows t) = true).
    { apply existsb_exists. exists r. split; auto.
      now apply bool_decide_eq_true. }
    congruence.
Qed.

(** An [INSERT] raises nothing but the two exceptions. *)
Lemma insert_candidate_raises t c e :
  insert_candidate t c = Raise e -> e = IntegrityError \/ e = UnicodeEncodeError.
Proof.
  unfold insert_candidate.
  destruct (db_insert_cases t (f_txid (c_fields c)) (f_alias (c_fields c))
              (f_city (c_fields c)) (f_country (c_fields c)) (c_lat c) (c_lng c)
              (c_amount_btc c) (c_iso_date c))
    as [[_ H] | [(_ & _ & H) | (_ & _ & _ & H)]]; rewrite H; intros [= <-]; auto.
Qed.

Lemma export_log_json_db w st : db (fst (export_log_json w st)) = db st.
Proof. unfold export_log_json. destruct (fs w); reflexivity. Qed.

Lemma export_log_json_hits w st :
  _ip_hits (fst (export_log_json w st)) = _ip_hits st.
Proof. unfold export_log_json. destruct (fs w); reflexivity. Qed.

Lemma api_submit_outcome rq w st : submit_outcome rq w st (api_submit rq w st).
Proof.
  unfold api_submit.
  destruct (rate_limited (client_ip rq) (time_time w) (_ip_hits st))
    as [hits limited] eqn:Hrl.
  assert (Hst : with_hits st hits = record_attempt rq w st).
  { unfold record_attempt. now rewrite Hrl. }
  assert (Hadm : limited = false -> within_quota rq w st).
  { intros ->. unfold within_quota. now rewrite Hrl. }
  rewrite Hst. destruct limited.
  - apply Limited. unfold within_quota. rewrite Hrl. simpl. discriminate.
  - specialize (Hadm eq_refl).
    destruct (gates rq w) as [[early|c]|e] eqn:Hg.
    + now apply Refused.
    + change (db (record_attempt rq w st)) with (db st).
      destruct (insert_candidate (db st) c) as [t|e] eqn:Hins.
      * destruct (export_log_json w (with_db (record_attempt rq w st) t))
          as [st2 r] eqn:Hex.
        replace st2 with
          (fst (export_log_json w (with_db (record_attempt rq w st) t)))
          by now rewrite Hex.
        now apply Stored with (c := c).
      * destruct (insert_candidate_raises _ _ _ Hins) as [-> | ->].
        -- now apply Conflict with (c := c).
        -- now apply Aborted with (c := c).
    + now apply Crashed.
Qed.

(** What the gates have established when they let a request through. *)
Lemma gates_pass rq w c :
  gates rq w = Ok (inr c) ->
  read_fields rq = Ok (c_fields c) /\
  valid_txid (f_txid (c_fields c)) = true /\
  f_city (c_fields c) <> [] /\ f_country (c_fields c) <> [] /\
  verify_payment w (f_txid (c_fields c)) = Some (c_amount_btc c) /\
  resolve_location w (f_city (c_fields c)) (f_country (c_fields c)) =
    Some (c_lat c, c_lng c) /\
  c_iso_date c = now_iso w.
Proof.
  unfold gates. destruct (read_fields rq) as [f|e]; simpl; [|discriminate].
  destruct (valid_txid (f_txid f)) eqn:Hv; simpl; [|discriminate].
  destruct (f_city f) as [|a u] eqn:Hc; simpl; [discriminate|].
  destruct (f_country f) as [|b v] eqn:Hk; simpl; [discriminate|].
  destruct (verify_payment w (f_txid f)) as [amount|] eqn:Hp; [|discriminate].
  destruct (resolve_location w (a :: u) (b :: v)) as [[lat lng]|] eqn:Hl;
    [|discriminate].
  intros [= <-]. simpl. rewrite Hc, Hk. repeat split; auto; discriminate.
Qed.

(** The early returns of the gates are the four 400 responses. *)
Lemma gates_early rq w early :
  gates rq w = Ok (inl early) ->
  early = BadTxid \/ early = MissingPlace \/
  early = Unverified \/ early = Unresolved.
Proof.
  unfold gates. destruct (read_fields rq) as [f|e]; simpl; [|discriminate].
  destruct (valid_txid (f_txid f)); simpl; [|intros [= <-]; auto].
  destruct (is_empty (f_city f) || is_empty (f_country f));
    [intros [= <-]; auto|].
  destruct (verify_payment w (f_txid f)); [|intros [= <-]; auto].
  destruct (resolve_location w (f_city f) (f_country f)) as [[lat lng]|];
    [discriminate | intros [= <-]; auto 6].
Qed.

Lemma read_fields_txid rq f : read_fields rq = Ok f -> txid_of rq = Ok (f_txid f).
Proof.
  unfold read_fields, txid_of.
  destruct (py_get _ (str "txid") _) as [v1|]; simpl; [|discriminate].
  destruct (sanitize_text v1 64) as [txid|]; simpl; [|discriminate].
  destruct (py_get _ (str "alias") _) as [v2|]; simpl; [|discriminate].
  destruct (sanitize_text v2 ALIAS_MAX) as [alias|]; simpl; [|discriminate].
  destruct (py_get _ (str "city") _) as [v3|]; simpl; [|discriminate].
  destruct (sanitize_text v3 CITY_MAX) as [city|]; simpl; [|discriminate].
  destruct (py_get _ (str "country") _) as [v4|]; simpl; [|discriminate].
  destruct (sanitize_text v4 COUNTRY_MAX) as [country|]; simpl; [|discriminate].
  now intros [= <-].
Qed.

Lemma text_field_sanitizes k d n :
  text_field k d ->
  exists v out, py_get (PyDict d) k (PyStr []) = Ok v /\ sanitize_text v n = Ok out.
Proof.
  unfold py_get. intros [-> | [-> | [s ->]]]; eexists _, _; split;
    try reflexivity; try apply sanitize_text_str; reflexivity.
Qed.

(** The four fields are read without an exception when the body is an
    object (or is absent) and each field is missing, [null] or a string. *)
Lemma read_fields_text rq d :
  py_or (get_json rq) (PyDict []) = PyDict d ->
  text_field (str "txid") d -> text_field (str "alias") d ->
  text_field (str "city") d -> text_field (str "country") d ->
  exists f, read_fields rq = Ok f.
Proof.
  intros Hd H1 H2 H3 H4. unfold read_fields. rewrite Hd.
  destruct (text_field_sanitizes _ _ 64 H1) as (v1 & o1 & -> & E1).
  destruct (text_field_sanitizes _ _ ALIAS_MAX H2) as (v2 & o2 & -> & E2).
  destruct (text_field_sanitizes _ _ CITY_MAX H3) as (v3 & o3 & -> & E3).
  destruct (text_field_sanitizes _ _ COUNTRY_MAX H4) as (v4 & o4 & -> & E4).
  cbn [bind]. rewrite E1. cbn [bind]. rewrite E2. cbn [bind].
  rewrite E3. cbn [bind]. rewrite E4. cbn [bind]. eauto.
Qed.

End Handler.

(** ** Ledger store *)

Section Ledger.

Context {cfg : Config} {py : Builtins}.

Lemma table_ok_empty : table_ok empty_table.
Proof. split; simpl; constructor. Qed.

Lemma StronglySorted_snoc (l : list Z) (x : Z) :
  StronglySorted Z.lt l -> Forall (fun y => (y < x)%Z) l ->
  StronglySorted Z.lt (l ++ [x]).
Proof.
  induction 1 as [|y l Hl IH Hy]; intros Hx; simpl.
  - repeat constructor.
  - inversion Hx; subst. constructor; auto.
    apply Forall_app. split; auto.
Qed.

Lemma insert_candidate_cases t c :
  (bindable c = false /\ insert_candidate t c = Raise UnicodeEncodeError)
  \/
  (bindable c = true /\
   (is_nan (c_lat c) || is_nan (c_lng c) || is_nan (c_amount_btc c) = true \/
    In (f_txid (c_fields c)) (List.map row_txid (rows t))) /\
   insert_candidate t c = Raise IntegrityError)
  \/
  (bindable c = true /\
   is_nan (c_lat c) || is_nan (c_lng c) || is_nan (c_amount_btc c) = false /\
   ~ In (f_txid (c_fields c)) (List.map row_txid (rows t)) /\
   insert_candidate t c =
     Ok {| rows := rows t ++
             [ row_of (seq t + 1) (c_fields c) (c_lat c) (c_lng c)
                 (c_amount_btc c) (c_iso_date c) ];
           seq := seq t + 1 |}).
Proof.
  unfold insert_candidate, bindable, row_of.
  apply db_insert_cases.
Qed.

Lemma table_ok_snoc t r :
  table_ok t -> row_id r = (seq t + 1)%Z ->
  ~ In (row_txid r) (List.map row_txid (rows t)) ->
  table_ok {| rows := rows t ++ [r]; seq := seq t + 1 |}.
Proof.
  intros [Hu Ha Hb] Hid Hfresh. split; simpl.
  - rewrite map_app. simpl. apply NoDup_app. repeat split; auto.
    + intros x Hx Hx'. apply list_elem_of_In in Hx, Hx'.
      destruct Hx' as [<-|[]]. contradiction.
    + apply NoDup_singleton.
  - rewrite map_app. simpl. apply StronglySorted_snoc; auto.
    rewrite Forall_map. eapply List.Forall_impl; [|exact Hb].
    simpl. intros a Ha'. lia.
  - apply Forall_app. split.
    + eapply List.Forall_impl; [|exact Hb]. simpl. intros a Ha'. lia.
    + constructor; [lia | constructor].
Qed.

(** A submission leaves the table as it was or appends one row, the one
    built from the values that passed the gates. *)
Lemma api_submit_rows rq w st :
  (db (fst (api_submit rq w st)) = db st /\
   snd (api_submit rq w st) <> Ok Accepted)
  \/
  (exists c r,
      within_quota rq w st /\ gates rq w = Ok (inr c) /\
      ~ In (f_txid (c_fields c)) (List.map row_txid (rows (db st))) /\
      db (fst (api_submit rq w st)) =
        {| rows := rows (db st) ++ [r]; seq := seq (db st) + 1 |} /\
      row_id r = (seq (db st) + 1)%Z /\
      row_txid r = f_txid (c_fields c) /\
      row_alias r = Some (f_alias (c_fields c)) /\
      row_city r = f_city (c_fields c) /\
      row_country r = f_country (c_fields c) /\
      r = row_of (seq (db st) + 1) (c_fields c) (c_lat c) (c_lng c)
            (c_amount_btc c) (c_iso_date c) /\
      snd (api_submit rq w st) = Ok Accepted).
Proof.
  destruct (api_submit_outcome rq w st)
    as [Hl | e Ha Hg | early Ha Hg | c Ha Hg Hi | c t' Ha Hg Hi | c Ha Hg Hi].
  - left. split; [reflexivity | discriminate].
  - left. split; [reflexivity | discriminate].
  - left. split; [reflexivity|]. simpl.
    destruct (gates_early _ _ _ Hg) as [-> | [-> | [-> | ->]]]; discriminate.
  - left. split; [reflexivity | discriminate].
  - right.
    destruct (insert_candidate_cases (db st) c)
      as [[_ H] | [(_ & _ & H) | (_ & _ & Hfresh & H)]]; try congruence.
    rewrite H in Hi. injection Hi as <-.
    eexists c, _. simpl. rewrite export_log_json_db. simpl.
    repeat split; auto.
  - left. split; [reflexivity | discriminate].
Qed.

Lemma api_submit_table_ok rq w st :
  table_ok (db st) -> table_ok (db (fst (api_submit rq w st))).
Proof.
  intros Hok. destruct (api_submit_rows rq w st) as [[-> _] | H]; auto.
  destruct H as (c & r & _ & _ & Hfresh & -> & Hid & Htx & _).
  apply table_ok_snoc; auto. now rewrite Htx.
Qed.


Lemma step_db st o :
  db (step st o) = db st \/
  exists rq, fst o = Submit rq /\ step st o = fst (api_submit rq (snd o) st).
Proof.
  unfold step. destruct (fst o) as [|rq|]; auto.
  - left. now rewrite export_log_json_db.
  - right. now exists rq.
Qed.

Lemma step_table_ok st o : table_ok (db st) -> table_ok (db (step st o)).
Proof.
  intros Hok. destruct (step_db st o) as [-> | (rq & _ & ->)]; auto.
  now apply api_submit_table_ok.
Qed.


Lemma run_table_ok trace st : table_ok (db st) -> table_ok (db (run trace st)).
Proof.
  revert st. induction trace as [|o trace IH]; intros st Hok; simpl; auto.
  apply IH. now apply step_table_ok.
Qed.


Lemma reachable_table_ok st : reachable st -> table_ok (db st).
Proof. intros [trace ->]. apply run_table_ok, table_ok_empty. Qed.



End Ledger.

(** ** Submissions: exactly once, rejections, export failures *)

Section Submission.

Context {cfg : Config} {py : Builtins}.

Lemma gates_txid rq w c txid :
  gates rq w = Ok (inr c) -> txid_of rq = Ok txid -> f_txid (c_fields c) = txid.
Proof.
  intros Hg Ht. apply gates_pass in Hg as (Hf & _).
  apply read_fields_txid in Hf. congruence.
Qed.


(** A request that gets as far as the [INSERT] is answered by what the
    [INSERT] does: a new table is exported and accepted, an
    [IntegrityError] is the Duplicate response, and an encoding error
    leaves the handler. *)
Lemma api_submit_at_insert rq w st c :
  within_quota rq w st -> gates rq w = Ok (inr c) ->
  api_submit rq w st =
    match insert_candidate (db st) c with
    | Ok t => (fst (export_log_json w (with_db (record_attempt rq w st) t)),
               Ok Accepted)
    | Raise IntegrityError => (record_attempt rq w st, Ok Duplicate)
    | Raise e => (record_attempt rq w st, Raise e)
    end.
Proof.
  intros Hq Hg.
  destruct (api_submit_outcome rq w st)
    as [Hl | e Ha Hg' | early Ha Hg' | c' Ha Hg' Hi | c' t' Ha Hg' Hi | c' Ha Hg' Hi];
    try congruence; try contradiction;
    rewrite Hg in Hg'; injection Hg' as <-; now rewrite Hi.
Qed.



(** C2 (amended). When the sanitized txid of a submission is not 64
    hexadecimal characters, no row is added; when the other three text
    fields sanitize as well, the response is the bad-input response (400)
    if the rate limiter let the request through, and the quota response
    (429) if it did not. *)
Theorem bad_txid_rejected rq w st txid :
  txid_of rq = Ok txid -> valid_txid txid = false ->
  db (fst (api_submit rq w st)) = db st /\
  (forall f, read_fields rq = Ok f ->
     (within_quota rq w st -> snd (api_submit rq w st) = Ok BadTxid) /\
     (~ within_quota rq w st -> snd (api_submit rq w st) = Ok QuotaExceeded)).
Proof.
  intros Ht Hv. split.
  - destruct (api_submit_rows rq w st) as [[H _] | H]; [exact H|].
    destruct H as (c & r & _ & Hg & _).
    pose proof (gates_txid _ _ _ _ Hg Ht) as Hc.
    apply gates_pass in Hg as (_ & Hvalid & _). congruence.
  - intros f Hf.
    assert (Hg : gates rq w = Ok (inl BadTxid)).
    { unfold gates. rewrite Hf. simpl.
      apply read_fields_txid in Hf. rewrite Ht in Hf. injection Hf as <-.
      now rewrite Hv. }
    destruct (api_submit_outcome rq w st)
      as [Hl | e Ha Hg' | early Ha Hg' | c Ha Hg' Hi | c t' Ha Hg' Hi | c Ha Hg' Hi];
      try congruence; simpl.
    + split; [contradiction | reflexivity].
    + split; [congruence | contradiction].
Qed.

(** C4. A submission answered with 429 or 400 leaves the table and the
    exported file as they were; the state differs only by the attempt
    recorded for its origin. A failing geocoder (error, timeout, status
    other than 200, empty result) on a request that passed the earlier
    gates is such a rejection. *)
Theorem rejection_frame rq w st :
  (forall body code,
      snd (api_submit rq w st) = Ok (body, code) ->
      (code = 429 \/ code = 400)%Z ->
      db (fst (api_submit rq w st)) = db st /\
      log_json (fst (api_submit rq w st)) = log_json st /\
      _ip_hits (fst (api_submit rq w st)) =
        <[client_ip rq :=
            List.filter (fun t => Qltb (time_time w - t) RATE_LIMIT_WINDOW_S)
              (hits_of (client_ip rq) st) ++ [time_time w]]> (_ip_hits st)) /\
  (forall f amount,
      within_quota rq w st -> read_fields rq = Ok f ->
      valid_txid (f_txid f) = true -> f_city f <> [] -> f_country f <> [] ->
      verify_payment w (f_txid f) = Some amount ->
      geocoder_fails w (f_city f) (f_country f) ->
      api_submit rq w st = (record_attempt rq w st, Ok Unresolved)).
Proof.
  split.
  - intros body code Hr Hcode.
    destruct (api_submit_outcome rq w st)
      as [Hl | e Ha Hg | early Ha Hg | c Ha Hg Hi | c t' Ha Hg Hi | c Ha Hg Hi];
      simpl in *; try (repeat split; reflexivity).
    injection Hr as _ <-. lia.
  - intros f amount Hadm Hf Hv Hc Hk Hp Hgeo.
    assert (Hloc : resolve_location w (f_city f) (f_country f) = None).
    { unfold resolve_location, geocode_city_country.
      unfold geocoder_fails in Hgeo.
      destruct (geo_http w _) as [e|code json]; [reflexivity|].
      destruct (Z.eqb_spec code 200) as [->|Hne]; simpl.
      - destruct Hgeo as [H|[[e ->]| ->]]; [congruence | reflexivity..].
      - reflexivity. }
    assert (Hg : gates rq w = Ok (inl Unresolved)).
    { unfold gates. rewrite Hf. simpl. rewrite Hv. simpl.
      destruct (f_city f); [congruence|]. destruct (f_country f); [congruence|].
      simpl. now rewrite Hp, Hloc. }
    destruct (api_submit_outcome rq w st)
      as [Hl | e Ha Hg' | early Ha Hg' | c Ha Hg' Hi | c t' Ha Hg' Hi | c Ha Hg' Hi];
      congruence.
Qed.

(** C8. Once the insert of a request within quota has succeeded, the
    response is the acceptance and the table is the one the insert
    produced, whatever becomes of the file write; when the write fails
    the exporter has raised, and the handler has swallowed it. *)
Theorem export_failure_isolated rq w st c t (o : fs_outcome) :
  within_quota rq w st -> gates rq w = Ok (inr c) ->
  insert_candidate (db st) c = Ok t ->
  snd (api_submit rq (with_fs w o) st) = Ok Accepted /\
  db (fst (api_submit rq (with_fs w o) st)) = t /\
  (o <> WriteOk ->
   snd (export_log_json (with_fs w o) (with_db (record_attempt rq w st) t)) =
     Raise OSError).
Proof.
  intros Hadm Hg Hi.
  assert (Hg' : gates rq (with_fs w o) = Ok (inr c)) by exact Hg.
  assert (Hadm' : within_quota rq (with_fs w o) st) by exact Hadm.
  split; [|split].
  - destruct (api_submit_outcome rq (with_fs w o) st)
      as [Hl | e Ha Hg2 | early Ha Hg2 | c2 Ha Hg2 Hi2 | c2 t2 Ha Hg2 Hi2
          | c2 Ha Hg2 Hi2];
      first [reflexivity | congruence].
  - destruct (api_submit_outcome rq (with_fs w o) st)
      as [Hl | e Ha Hg2 | early Ha Hg2 | c2 Ha Hg2 Hi2 | c2 t2 Ha Hg2 Hi2
          | c2 Ha Hg2 Hi2];
      try congruence; try contradiction.
    cbn [fst]. rewrite export_log_json_db. simpl.
    rewrite Hg' in Hg2. injection Hg2 as <-. congruence.
  - intros Ho. unfold export_log_json. destruct o; simpl; congruence.
Qed.

End Submission.

(** ** Payment verifier *)

Section Payment.

Context {cfg : Config} {py : Builtins}.

Lemma pystr_eqb_refl (a : pystr) : pystr_eqb a a = true.
Proof. unfold pystr_eqb. now apply bool_decide_eq_true_2. Qed.

Lemma paid_to_cons addr o outs :
  paid_to addr (o :: outs) =
  if pays addr o then (vout_value o + paid_to addr outs)%Z
  else paid_to addr outs.
Proof. unfold paid_to. simpl. destruct (pays addr o); reflexivity. Qed.

(** On a well-formed output list the loop adds up the outputs that pay
    the address. *)
Lemma sum_vouts_outputs addr items outs :
  Forall2 vout_json items outs ->
  forall sats, sum_vouts addr items sats = Ok (sats + paid_to addr outs)%Z.
Proof.
  induction 1 as [|j o items outs Hj _ IH]; intros sats.
  - simpl. f_equal. unfold paid_to. simpl. lia.
  - destruct Hj as (d & -> & Hval & Haddr).
    rewrite paid_to_cons. unfold pays. simpl.
    destruct (vout_address o) as [a|].
    + rewrite Haddr. simpl. destruct (pystr_eqb a addr).
      * rewrite Hval. simpl. rewrite IH. f_equal. lia.
      * apply IH.
    + destruct Haddr as [-> | ->]; simpl; apply IH.
Qed.

Lemma int_truediv_1e8 z :
  int_truediv_float z float_1e8 =
    match btc_of_sats z with
    | Some a => Ok a
    | None => Raise OverflowError
    end.
Proof.
  unfold int_truediv_float, float_of_int, btc_of_sats.
  destruct (float64_of_int z); reflexivity.
Qed.

Lemma tx_amount_outputs w txid addr tx outs :
  tx_http w txid = HttpResp 200 (Ok tx) -> tx_json tx outs ->
  try_except (tx_amount_to_our_address_btc w txid addr) None =
    if (0 <? paid_to addr outs)%Z then btc_of_sats (paid_to addr outs) else None.
Proof.
  intros Hhttp (d & items & -> & Hv & Hitems).
  unfold tx_amount_to_our_address_btc. rewrite Hhttp. simpl.
  rewrite Hv. simpl. rewrite (sum_vouts_outputs addr items outs Hitems).
  simpl bind. rewrite Z.add_0_l, int_truediv_1e8.
  destruct (Z.leb_spec (paid_to addr outs) 0) as [Hle|Hgt];
    destruct (Z.ltb_spec 0 (paid_to addr outs)); try lia; [reflexivity|].
  now destruct (btc_of_sats (paid_to addr outs)).
Qed.

(** Whatever the fact-source answers, a verified amount is the quotient
    of a positive total. *)
Lemma tx_amount_positive w txid addr q :
  tx_amount_to_our_address_btc w txid addr = Ok (Some q) ->
  exists sats, (0 < sats)%Z /\ btc_of_sats sats = Some q.
Proof.
  unfold tx_amount_to_our_address_btc.
  destruct (tx_http w txid) as [e|code json]; [discriminate|].
  destruct (negb (code =? 200)%Z); [discriminate|].
  destruct json as [tx|e]; simpl; [|discriminate].
  destruct (py_get tx (str "vout") (PyList [])) as [vouts|e]; simpl;
    [|discriminate].
  destruct (py_iter vouts) as [items|e]; simpl; [|discriminate].
  destruct (sum_vouts addr items 0) as [sats|e]; simpl; [|discriminate].
  destruct (Z.leb_spec sats 0) as [Hle|Hgt]; [discriminate|].
  rewrite int_truediv_1e8.
  destruct (btc_of_sats sats) as [a|] eqn:Ha; simpl; [|discriminate].
  intros [= <-]. now exists sats.
Qed.

(** The binary64 quotient [150000 / 1e8] is the double that the literal
    [0.0015] denotes: it is a canonical double, half a unit in the last
    place (2^-63) or less away from 15/10000. *)
Lemma btc_of_sats_scenario :
  btc_of_sats 150000 = Some double_0_0015 /\
  valid_binary 53 1024 double_0_0015 = true /\
  exists q, float_value double_0_0015 = Some q /\
    (- (1 # 2 ^ 63) <= q - 0.0015 <= 1 # 2 ^ 63)%Q.
Proof.
  split; [vm_compute; reflexivity|]. split; [vm_compute; reflexivity|].
  eexists. split; [reflexivity|].
  split; vm_compute; discriminate.
Qed.

Lemma is_hex_not_surrogate c : is_hex c = true -> is_surrogate c = false.
Proof.
  unfold is_hex, is_surrogate. intros H.
  apply andb_false_iff. left. apply N.leb_gt.
  repeat (apply orb_true_iff in H as [H|H]);
    apply andb_true_iff in H as [_ H]; apply N.leb_le in H; lia.
Qed.

Lemma valid_txid_encodable t : valid_txid t = true -> encodable t = true.
Proof.
  unfold valid_txid, encodable. intros H. apply andb_true_iff in H as [_ H].
  rewrite forallb_forall in H |- *. intros c Hc.
  now rewrite is_hex_not_surrogate by auto.
Qed.

Lemma gates_accept rq w f amount lat lng :
  read_fields rq = Ok f -> valid_txid (f_txid f) = true ->
  f_city f <> [] -> f_country f <> [] ->
  verify_payment w (f_txid f) = Some amount ->
  resolve_location w (f_city f) (f_country f) = Some (lat, lng) ->
  gates rq w =
    Ok (inr {| c_fields := f; c_lat := lat; c_lng := lng;
               c_amount_btc := amount; c_iso_date := now_iso w |}).
Proof.
  intros Hf Hv Hc Hk Hp Hl. unfold gates. rewrite Hf. simpl. rewrite Hv. simpl.
  destruct (f_city f) as [|a u] eqn:Ec; [congruence|].
  destruct (f_country f) as [|b v] eqn:Ek; [congruence|].
  simpl. now rewrite Hp, Hl.
Qed.

(** C3 (amended). The verifier as the handler calls it. It never raises:
    an unreachable fact-source and a status other than 200 give
    "unverified" ([None]), and any verified amount is the quotient of a
    positive total. On a reply that carries an output list, it adds up
    the values of the outputs whose address is the configured one; when
    the total is positive and within the range of the doubles the result
    is that total divided by 10^8 in binary64, and it is "unverified"
    otherwise (a total that is not positive, or one too large to
    convert). For 150000 satoshis that quotient is the double 0.0015, and
    a submission whose transaction has one such output to the address,
    once it has passed the other gates with texts that can be encoded
    and coordinates that are numbers, is accepted and stored with that
    amount. *)
Theorem payment_verification :
  (forall w txid e, tx_http w txid = HttpRaise e -> verify_payment w txid = None) /\
  (forall w txid code json,
      tx_http w txid = HttpResp code json -> code <> 200%Z ->
      verify_payment w txid = None) /\
  (forall w txid q,
      verify_payment w txid = Some q ->
      exists sats, (0 < sats)%Z /\ btc_of_sats sats = Some q) /\
  (forall w txid tx outs,
      tx_http w txid = HttpResp 200 (Ok tx) -> tx_json tx outs ->
      verify_payment w txid =
        if (0 <? paid_to BTC_ADDRESS outs)%Z
        then btc_of_sats (paid_to BTC_ADDRESS outs)
        else None) /\
  (btc_of_sats 150000 = Some double_0_0015 /\
   exists q, float_value double_0_0015 = Some q /\
     (- (1 # 2 ^ 63) <= q - 0.0015 <= 1 # 2 ^ 63)%Q) /\
  (forall rq w st f tx lat lng,
      within_quota rq w st -> read_fields rq = Ok f ->
      valid_txid (f_txid f) = true -> f_city f <> [] -> f_country f <> [] ->
      tx_http w (f_txid f) = HttpResp 200 (Ok tx) ->
      tx_json tx [ {| vout_address := Some BTC_ADDRESS; vout_value := 150000 |} ] ->
      resolve_location w (f_city f) (f_country f) = Some (lat, lng) ->
      is_nan lat = false -> is_nan lng = false ->
      forallb encodable [ f_alias f; f_city f; f_country f; now_iso w ] = true ->
      ~ In (f_txid f) (List.map row_txid (rows (db st))) ->
      snd (api_submit rq w st) = Ok Accepted /\
      exists r,
        rows (db (fst (api_submit rq w st))) = rows (db st) ++ [r] /\
        row_txid r = f_txid f /\ row_amount_btc r = double_0_0015).
Proof.
  split; [|split; [|split; [|split; [|split]]]].
  - intros w txid e H. unfold verify_payment, tx_amount_to_our_address_btc.
    now rewrite H.
  - intros w txid code json H Hcode.
    unfold verify_payment, tx_amount_to_our_address_btc. rewrite H.
    apply Z.eqb_neq in Hcode. now rewrite Hcode.
  - intros w txid q. unfold verify_payment.
    destruct (tx_amount_to_our_address_btc w txid BTC_ADDRESS) as [[a|]|e] eqn:H;
      simpl; try discriminate.
    intros [= ->]. eapply tx_amount_positive; eauto.
  - intros w txid tx outs H Htx. unfold verify_payment.
    exact (tx_amount_outputs _ _ _ _ _ H Htx).
  - destruct btc_of_sats_scenario as (H1 & _ & H2). now split.
  - intros rq w st f tx lat lng Hadm Hf Hv Hc Hk Htx Hj Hl Hlat Hlng Henc Hfresh.
    assert (Hp : verify_payment w (f_txid f) = Some double_0_0015).
    { unfold verify_payment. rewrite (tx_amount_outputs _ _ _ _ _ Htx Hj).
      rewrite paid_to_cons. unfold pays. simpl.
      rewrite pystr_eqb_refl. reflexivity. }
    pose proof (gates_accept _ _ _ _ _ _ Hf Hv Hc Hk Hp Hl) as Hg.
    rewrite (api_submit_at_insert _ _ _ _ Hadm Hg).
    destruct (insert_candidate_cases (db st)
                {| c_fields := f; c_lat := lat; c_lng := lng;
                   c_amount_btc := double_0_0015; c_iso_date := now_iso w |})
      as [[Hb _] | [(_ & Hbad & _) | (_ & _ & _ & H)]].
    + exfalso. unfold bindable in Hb. cbn [c_fields c_iso_date] in Hb.
      cbn [forallb] in Hb, Henc.
      rewrite (valid_txid_encodable _ Hv) in Hb. cbn [andb] in Hb. congruence.
    + exfalso. cbn [c_fields c_lat c_lng c_amount_btc] in Hbad.
      rewrite Hlat, Hlng in Hbad. destruct Hbad as [Hbad|Hbad];
        [discriminate | contradiction].
    + rewrite H. cbn [fst snd]. rewrite export_log_json_db. cbn [db with_db rows].
      split; [reflexivity|]. eexists. split; [reflexivity|]. split; reflexivity.
Qed.

End Payment.

(** ** Rate limiter *)

Section RateLimiter.

Context {cfg : Config} {py : Builtins}.

Lemma Qltb_lt (x y : Q) : Qltb x y = true <-> (x < y)%Q.
Proof.
  unfold Qltb. rewrite negb_true_iff. split.
  - intros H. apply Qnot_le_lt. intros Hle. apply Qle_bool_iff in Hle. congruence.
  - intros H. destruct (Qle_bool y x) eqn:E; auto.
    apply Qle_bool_iff in E. exfalso. eapply Qlt_not_le; eauto.
Qed.

Lemma Qltb_ge (x y : Q) : Qltb x y = false <-> (y <= x)%Q.
Proof.
  split.
  - intros H. destruct (Qlt_le_dec x y) as [Hlt|Hle]; auto.
    apply Qltb_lt in Hlt. congruence.
  - intros H. destruct (Qltb x y) eqn:E; auto.
    apply Qltb_lt in E. exfalso. eapply Qlt_not_le; eauto.
Qed.

Lemma filter_keep_all {A} (f : A -> bool) (l : list A) :
  Forall (fun x => f x = true) l -> List.filter f l = l.
Proof. induction 1 as [|x l Hx _ IH]; simpl; [|rewrite Hx, IH]; auto. Qed.

Lemma filter_drop_all {A} (f : A -> bool) (l : list A) :
  Forall (fun x => f x = false) l -> List.filter f l = [].
Proof. induction 1 as [|x l Hx _ IH]; simpl; [|rewrite Hx, IH]; auto. Qed.

Lemma api_submit_hits rq w st :
  _ip_hits (fst (api_submit rq w st)) =
  fst (rate_limited (client_ip rq) (time_time w) (_ip_hits st)).
Proof.
  destruct (api_submit_outcome rq w st); cbn [fst]; try reflexivity.
  now rewrite export_log_json_hits.
Qed.

Lemma hits_of_after rq w st :
  hits_of (client_ip rq) (fst (api_submit rq w st)) =
  List.filter (fun t => Qltb (time_time w - t) RATE_LIMIT_WINDOW_S)
    (hits_of (client_ip rq) st) ++ [time_time w].
Proof.
  unfold hits_of. rewrite api_submit_hits. unfold rate_limited. cbn [fst].
  now rewrite lookup_insert_eq.
Qed.

Lemma within_quota_iff rq w st :
  within_quota rq w st <->
  (length (hits_of (client_ip rq) (fst (api_submit rq w st))) <= 12)%nat.
Proof.
  rewrite hits_of_after. unfold within_quota, rate_limited, hits_of. cbn [snd].
  unfold RATE_LIMIT_MAX. rewrite Nat.ltb_ge. reflexivity.
Qed.

(** The quota response is the answer of the rate limiter and of nothing
    else. *)
Lemma quota_iff rq w st :
  snd (api_submit rq w st) = Ok QuotaExceeded <-> ~ within_quota rq w st.
Proof.
  destruct (api_submit_outcome rq w st)
    as [Hl | e Ha Hg | early Ha Hg | c Ha Hg Hi | c t' Ha Hg Hi | c Ha Hg Hi]; cbn [snd];
    split; auto; try discriminate; try contradiction.
  destruct (gates_early _ _ _ Hg) as [-> | [-> | [-> | ->]]]; discriminate.
Qed.

Lemma within_window_app (a b : list Q) :
  within_window (a ++ b) ->
  Forall (fun t => Forall (fun t' => t' - t < RATE_LIMIT_WINDOW_S)%Q b) a /\
  within_window b.
Proof.
  induction a as [|t a IH]; simpl.
  - auto.
  - intros [Ht Hrest]. destruct (IH Hrest) as [Ha Hb]. split; auto.
    constructor; auto. apply Forall_app in Ht. tauto.
Qed.

Lemma within_window_snoc (a : list Q) (t : Q) (b : list Q) :
  within_window (a ++ t :: b) -> within_window ((a ++ [t]) ++ b).
Proof. now rewrite <- app_assoc. Qed.

(** A run of submissions of one origin, all inside one window: attempts
    recorded earlier are either a window old for all of them ([stale]) or
    inside the window too ([recent]). *)
Lemma submit_all_quota ip l :
  forall st stale recent,
    hits_of ip st = stale ++ recent ->
    Forall (fun x => client_ip (fst x) = ip) l ->
    Forall (fun t => Forall (fun x => RATE_LIMIT_WINDOW_S <= time_time (snd x) - t)%Q l)
      stale ->
    within_window (recent ++ List.map (fun x => time_time (snd x)) l) ->
    forall k r,
      nth_error (snd (submit_all l st)) k = Some r ->
      (r = Ok QuotaExceeded <-> (12 <= length recent + k)%nat).
Proof.
  induction l as [|[rq w] l IH]; intros st stale recent Hh Hip Hstale Hwin k r.
  - destruct k; discriminate.
  - simpl submit_all.
    destruct (api_submit rq w st) as [st1 r0] eqn:Hsub.
    destruct (submit_all l st1) as [st2 rs] eqn:Hall. cbn [snd].
    apply List.Forall_cons_iff in Hip as [Hrq Hip']. simpl in Hrq. subst ip.
    simpl in Hwin.
    assert (Hkeep :
      List.filter (fun t => Qltb (time_time w - t) RATE_LIMIT_WINDOW_S)
        (stale ++ recent) = recent).
    { rewrite List.filter_app. rewrite filter_drop_all, filter_keep_all; auto.
      - apply within_window_app in Hwin as [Hrec _].
        eapply List.Forall_impl; [|exact Hrec]. simpl. intros t Ht.
        inversion Ht; subst. now apply Qltb_lt.
      - eapply List.Forall_impl; [|exact Hstale]. simpl. intros t Ht.
        inversion Ht; subst. now apply Qltb_ge. }
    assert (Hh1 : hits_of (client_ip rq) st1 = recent ++ [time_time w]).
    { replace st1 with (fst (api_submit rq w st)) by now rewrite Hsub.
      now rewrite hits_of_after, Hh, Hkeep. }
    destruct k as [|k]; simpl.
    + intros [= <-].
      replace r0 with (snd (api_submit rq w st)) by now rewrite Hsub.
      rewrite quota_iff, within_quota_iff. rewrite Hsub. cbn [fst].
      rewrite Hh1, length_app. simpl. lia.
    + intros Hk.
      assert (Hk' : nth_error (snd (submit_all l st1)) k = Some r)
        by now rewrite Hall.
      apply (IH st1 [] (recent ++ [time_time w])) in Hk'; auto.
      * rewrite length_app in Hk'. simpl in Hk'. rewrite Hk'. lia.
      * now apply within_window_snoc.
Qed.

(** C5. The check keeps the recorded timestamps of the origin that are
    less than 60 seconds old, appends the current one, stores the list
    and reports "limited" exactly when its length exceeds 12. Hence, for
    submissions of one origin that all fall inside one window, earlier
    attempts being a window old, exactly the 13th and later ones are
    answered with the quota response; and once every recorded attempt is
    at least a window old, a request is let through, is not answered with
    the quota response, and the gates decide its early rejection. *)
Theorem rate_limiter_window :
  (forall ip now m,
      let old := default [] (m !! ip) in
      let kept := List.filter (fun t => Qltb (now - t) RATE_LIMIT_WINDOW_S) old in
      rate_limited ip now m =
        (<[ip := kept ++ [now]]> m, (12 <? length (kept ++ [now]))%nat) /\
      (forall t, In t kept <-> In t old /\ (now - t < 60)%Q)) /\
  (forall ip l st,
      Forall (fun x => client_ip (fst x) = ip) l ->
      Forall (fun t => Forall (fun x => 60 <= time_time (snd x) - t)%Q l)
        (hits_of ip st) ->
      within_window (List.map (fun x => time_time (snd x)) l) ->
      forall k r,
        nth_error (snd (submit_all l st)) k = Some r ->
        (r = Ok QuotaExceeded <-> (12 <= k)%nat)) /\
  (forall rq w st,
      Forall (fun t => 60 <= time_time w - t)%Q (hits_of (client_ip rq) st) ->
      within_quota rq w st /\
      snd (api_submit rq w st) <> Ok QuotaExceeded /\
      hits_of (client_ip rq) (fst (api_submit rq w st)) = [time_time w] /\
      (forall early, gates rq w = Ok (inl early) ->
                     snd (api_submit rq w st) = Ok early)).
Proof.
  split; [|split].
  - intros ip now m old kept. split; [reflexivity|].
    intros t. unfold kept. rewrite filter_In, Qltb_lt. reflexivity.
  - intros ip l st Hip Hstale Hwin k r Hk.
    apply (submit_all_quota ip l st (hits_of ip st) []) in Hk; auto.
    now rewrite app_nil_r.
  - intros rq w st Hold.
    assert (Hh : hits_of (client_ip rq) (fst (api_submit rq w st)) = [time_time w]).
    { rewrite hits_of_after, filter_drop_all; auto.
      eapply List.Forall_impl; [|exact Hold]. simpl. intros t Ht.
      now apply Qltb_ge. }
    assert (Hadm : within_quota rq w st).
    { apply within_quota_iff. rewrite Hh. simpl. lia. }
    repeat split; auto.
    + rewrite quota_iff. tauto.
    + intros early Hg.
      destruct (api_submit_outcome rq w st)
        as [Hl | e Ha Hg' | early' Ha Hg' | c Ha Hg' Hi | c t' Ha Hg' Hi | c Ha Hg' Hi];
        cbn [snd]; congruence.
Qed.

End RateLimiter.

(** ** Exporter *)

Section Exporter.

Context {cfg : Config} {py : Builtins}.

Lemma insert_by_id_front r l :
  Forall (fun x => (row_id r < row_id x)%Z) l -> insert_by_id r l = r :: l.
Proof.
  destruct 1 as [|x l Hx _]; simpl; auto.
  destruct (Z.leb_spec (row_id r) (row_id x)); auto. lia.
Qed.

(** Rows inserted with ascending ids come back in insertion order. *)
Lemma select_order_by_id_sorted t :
  StronglySorted Z.lt (List.map row_id (rows t)) ->
  select_order_by_id t = rows t.
Proof.
  unfold select_order_by_id. induction (rows t) as [|r l IH]; simpl; auto.
  intros H. inversion H as [|? ? Hl Hr]; subst. rewrite IH by assumption.
  apply insert_by_id_front. now rewrite Forall_map in Hr.
Qed.

Lemma length_insert_by_id r l : length (insert_by_id r l) = S (length l).
Proof.
  induction l as [|x l IH]; simpl; auto.
  destruct (row_id r <=? row_id x)%Z; simpl; auto.
Qed.

(** The query returns as many rows as the table has, whatever their ids. *)
Lemma length_select_order_by_id t :
  length (select_order_by_id t) = length (rows t).
Proof.
  unfold select_order_by_id. induction (rows t) as [|r l IH]; simpl; auto.
  now rewrite length_insert_by_id, IH.
Qed.

Lemma assoc_head k v d : assoc k ((k, v) :: d) = Some v.
Proof. simpl. now rewrite pystr_eqb_refl. Qed.

Lemma assoc_set_head k v x d : assoc_set k v ((k, x) :: d) = (k, v) :: d.
Proof. simpl. now rewrite pystr_eqb_refl. Qed.

(** Replacing the timestamp of an exported document gives the document
    exported at that other time. *)
Lemma with_exported_iso_document iso iso' t :
  with_exported_iso iso (export_document iso' t) = export_document iso t.
Proof.
  unfold export_document, with_exported_iso.
  rewrite assoc_head. unfold project_json. rewrite assoc_set_head.
  reflexivity.
Qed.

Lemma entry_json_of_row r : entry_json r = entry_of_row r.
Proof.
  unfold entry_json, entry_of_row.
  destruct (row_alias r) as [[|c a]|]; reflexivity.
Qed.

Lemma insert_by_id_perm r l : Permutation (insert_by_id r l) (r :: l).
Proof.
  induction l as [|x l IH]; simpl; [reflexivity|].
  destruct (row_id r <=? row_id x)%Z; [reflexivity|].
  rewrite IH. apply perm_swap.
Qed.

Lemma insert_by_id_sorted r l :
  StronglySorted by_id l -> StronglySorted by_id (insert_by_id r l).
Proof.
  induction 1 as [|x l Hl IH Hx]; simpl.
  - repeat constructor.
  - destruct (Z.leb_spec (row_id r) (row_id x)) as [Hle|Hgt].
    + constructor; [now constructor|]. constructor; [exact Hle|].
      eapply List.Forall_impl; [|exact Hx]. unfold by_id. intros a Ha. lia.
    + constructor; [exact IH|].
      apply Forall_forall. intros a Ha. apply list_elem_of_In in Ha.
      apply (Permutation_in _ (insert_by_id_perm r l)) in Ha.
      destruct Ha as [<- | Ha].
      * unfold by_id. lia.
      * rewrite List.Forall_forall in Hx. now apply Hx.
Qed.

(** The query returns the rows of the table, sorted by id. *)
Lemma select_order_by_id_spec t :
  Permutation (select_order_by_id t) (rows t) /\
  StronglySorted by_id (select_order_by_id t).
Proof.
  unfold select_order_by_id. induction (rows t) as [|r l [IHp IHs]]; simpl.
  - split; [reflexivity | constructor].
  - split; [|now apply insert_by_id_sorted].
    rewrite insert_by_id_perm. now constructor.
Qed.

(** C6. Every run of the exporter builds one document: the project
    metadata (origin label, address, export time) and one entry per row
    of the table, the rows taken by ascending id; each entry has the
    eight fields of its row, with the values of that row, and there are
    as many entries as rows. In a table whose ids ascend in insertion
    order, and so in every state the service reaches, the entries are in
    insertion order. That document is what the file holds once the write
    has succeeded, and the table is not changed. *)
Theorem export_artifact w st :
  exists entries sorted,
    export_document (export_iso w) (db st) =
      PyDict
        [ (str "project",
           PyDict [ (str "origin_label", PyStr ORIGIN_LABEL);
                    (str "btc_address", PyStr BTC_ADDRESS);
                    (str "exported_iso", PyStr (export_iso w)) ]);
          (str "entries", PyList entries) ] /\
    entries = List.map entry_of_row sorted /\
    Permutation sorted (rows (db st)) /\
    StronglySorted by_id sorted /\
    length entries = length (rows (db st)) /\
    Forall (fun e => dict_keys e =
                     [ str "txid"; str "alias"; str "city"; str "country";
                       str "lat"; str "lng"; str "amount_btc"; str "iso_date" ])
      entries /\
    (table_ok (db st) -> sorted = rows (db st)) /\
    (reachable st ->
     sorted = rows (db st) /\
     StronglySorted Z.lt (List.map row_id (rows (db st)))) /\
    (fs w = WriteOk ->
     log_json (fst (export_log_json w st)) =
       Written
         (PyDict
            [ (str "project",
               PyDict [ (str "origin_label", PyStr ORIGIN_LABEL);
                        (str "btc_address", PyStr BTC_ADDRESS);
                        (str "exported_iso", PyStr (export_iso w)) ]);
              (str "entries", PyList entries) ])) /\
    db (fst (export_log_json w st)) = db st.
Proof.
  exists (List.map entry_of_row (select_order_by_id (db st))),
         (select_order_by_id (db st)).
  destruct (select_order_by_id_spec (db st)) as [Hperm Hsorted].
  assert (Hdoc : export_document (export_iso w) (db st) =
    PyDict
      [ (str "project",
         PyDict [ (str "origin_label", PyStr ORIGIN_LABEL);
                  (str "btc_address", PyStr BTC_ADDRESS);
                  (str "exported_iso", PyStr (export_iso w)) ]);
        (str "entries",
         PyList (List.map entry_of_row (select_order_by_id (db st)))) ]).
  { unfold export_document, project_json.
    rewrite (map_ext _ _ entry_json_of_row). reflexivity. }
  split; [exact Hdoc|]. split; [reflexivity|]. split; [exact Hperm|].
  split; [exact Hsorted|].
  split; [now rewrite length_map, length_select_order_by_id|].
  split; [rewrite Forall_map; apply Forall_forall; intros r _; reflexivity|].
  split; [intros [_ Hs _]; now apply select_order_by_id_sorted|].
  split; [|split].
  - intros Hr. apply reachable_table_ok in Hr as [_ Hs _].
    split; [now apply select_order_by_id_sorted | exact Hs].
  - intros Hfs. unfold export_log_json. rewrite Hfs. cbn [fst log_json].
    now rewrite Hdoc.
  - apply export_log_json_db.
Qed.

(** [GET /api/log] answers with the document an export at the same
    instant writes. *)
Lemma api_log_export w st :
  fs w = WriteOk ->
  log_json (fst (export_log_json w st)) = Written (api_log w st).
Proof. intros H. unfold export_log_json, api_log. now rewrite H. Qed.

(** The same for every state the service can be in. *)
Corollary reachable_export_document w st :
  reachable st -> fs w = WriteOk ->
  log_json (fst (export_log_json w st)) =
    Written (PyDict
      [ (str "project", project_json (export_iso w));
        (str "entries", PyList (List.map entry_json (rows (db st)))) ]).
Proof.
  intros Hr Hfs. apply reachable_table_ok in Hr as [_ Hs _].
  unfold export_log_json, export_document. rewrite Hfs. cbn [fst log_json].
  now rewrite select_order_by_id_sorted.
Qed.

(** C7. Two runs of the exporter in a row, both writing: the table is
    the same before and after, and each document is the other one with
    only its [exported_iso] replaced. *)
Theorem export_idempotent w1 w2 st :
  fs w1 = WriteOk -> fs w2 = WriteOk ->
  let st1 := fst (export_log_json w1 st) in
  let st2 := fst (export_log_json w2 st1) in
  exists d1 d2,
    log_json st1 = Written d1 /\ log_json st2 = Written d2 /\
    db st1 = db st /\ db st2 = db st /\
    d2 = with_exported_iso (export_iso w2) d1 /\
    d1 = with_exported_iso (export_iso w1) d2.
Proof.
  intros H1 H2 st1 st2.
  exists (export_document (export_iso w1) (db st)),
         (export_document (export_iso w2) (db st)).
  unfold st2, st1, export_log_json. rewrite H1. cbn [fst db log_json].
  rewrite H2. cbn [fst db log_json].
  rewrite !with_exported_iso_document. repeat split.
Qed.

End Exporter.

(** ** Well-formed entries *)

Section Entries.

Context {cfg : Config} {py : Builtins}.

Lemma read_fields_shape rq f :
  read_fields rq = Ok f ->
  (length (f_alias f) <= 30)%nat /\
  (forall s, s = f_city f \/ s = f_country f ->
     (length s <= 60)%nat /\ starts_ws s = false /\ no_double_ws s = true /\
     (ends_ws s = true -> length s = 60%nat)).
Proof.
  unfold read_fields.
  destruct (py_get _ (str "txid") _) as [v1|]; simpl; [|discriminate].
  destruct (sanitize_text v1 64) as [txid|]; simpl; [|discriminate].
  destruct (py_get _ (str "alias") _) as [v2|]; simpl; [|discriminate].
  destruct (sanitize_text v2 ALIAS_MAX) as [alias|] eqn:Ha; simpl; [|discriminate].
  destruct (py_get _ (str "city") _) as [v3|]; simpl; [|discriminate].
  destruct (sanitize_text v3 CITY_MAX) as [city|] eqn:Hc; simpl; [|discriminate].
  destruct (py_get _ (str "country") _) as [v4|]; simpl; [|discriminate].
  destruct (sanitize_text v4 COUNTRY_MAX) as [country|] eqn:Hk; simpl;
    [|discriminate].
  intros [= <-]. simpl.
  apply sanitize_text_shape in Ha, Hc, Hk; try (unfold ALIAS_MAX, CITY_MAX, COUNTRY_MAX; lia).
  split; [apply Ha|]. intros s [-> | ->]; assumption.
Qed.

Lemma gates_entry_ok rq w c r :
  gates rq w = Ok (inr c) ->
  row_txid r = f_txid (c_fields c) ->
  row_alias r = Some (f_alias (c_fields c)) ->
  row_city r = f_city (c_fields c) ->
  row_country r = f_country (c_fields c) ->
  entry_ok r.
Proof.
  intros Hg Htx Hal Hci Hco.
  apply gates_pass in Hg as (Hf & Hv & Hc & Hk & _).
  apply read_fields_shape in Hf as [Ha Hplace].
  unfold entry_ok, place_ok, alias_ok. rewrite Htx, Hal, Hci, Hco.
  destruct (Hplace (f_city (c_fields c))) as (? & ? & ? & ?); auto.
  destruct (Hplace (f_country (c_fields c))) as (? & ? & ? & ?); auto.
  repeat split; auto.
Qed.

Lemma api_submit_entries_ok rq w st :
  Forall entry_ok (rows (db st)) ->
  Forall entry_ok (rows (db (fst (api_submit rq w st)))).
Proof.
  intros Hok. destruct (api_submit_rows rq w st) as [[-> _] | H]; auto.
  destruct H as (c & r & _ & Hg & _ & -> & _ & Htx & Hal & Hci & Hco & _).
  simpl. apply Forall_app. split; auto. constructor; [|constructor].
  eapply gates_entry_ok; eauto.
Qed.

(** C10 (amended). Every operation of the service keeps, and every state
    reached from a fresh deployment has, only rows with: a txid of 64
    hexadecimal characters; a city and a country that are non-empty, at
    most 60 characters long, without leading whitespace and without two
    adjacent whitespace characters, and that end in whitespace only when
    exactly 60 characters long; an alias of at most 30 characters. (The
    coordinates, the amount and the date are columns of every row.) *)
Theorem ledger_well_formed :
  (forall st o,
      Forall entry_ok (rows (db st)) -> Forall entry_ok (rows (db (step st o)))) /\
  (forall trace, Forall entry_ok (rows (db (run trace fresh)))).
Proof.
  assert (Hstep : forall st o,
    Forall entry_ok (rows (db st)) -> Forall entry_ok (rows (db (step st o)))).
  { intros st o Hok. destruct (step_db st o) as [-> | (rq & _ & ->)]; auto.
    now apply api_submit_entries_ok. }
  split; [exact Hstep|].
  intros trace. unfold run.
  assert (H : Forall entry_ok (rows (db fresh))) by constructor.
  revert H. generalize fresh.
  induction trace as [|o trace IH]; intros st Hok; simpl; auto.
Qed.

End Entries.

(** ** Worked examples on the demonstration deployment *)

Section Examples.

#[local] Existing Instance Demo.config.
#[local] Existing Instance Demo.builtins.


(** The same with an alias that cannot be encoded: the second
    submission gets as far as the [INSERT], which raises while it binds
    the alias; the exception leaves the handler and no row is added. *)
Example surrogate_alias_raises :
  txid_of Demo.surrogate_alias = Ok Demo.txid_a /\
  reaches_persist Demo.surrogate_alias (Demo.world 1010) (fst Demo.first_try) /\
  snd Demo.surrogate_try = Raise UnicodeEncodeError /\
  db (fst Demo.surrogate_try) = db (fst Demo.first_try).
Proof.
  split; [vm_compute; reflexivity|]. split.
  - split; [vm_compute; reflexivity | eexists; vm_compute; reflexivity].
  - split; vm_compute; reflexivity.
Qed.


(** C2 as it was claimed fails: the thirteenth request of an origin
    within thirteen seconds carries a txid that is not 64 hexadecimal
    characters and is answered with 429, not with 400. *)
Lemma bad_txid_over_quota :
  txid_of Demo.bad_txid = Ok (str "xyz") /\
  valid_txid (str "xyz") = false /\
  snd Demo.thirteenth_bad = Ok QuotaExceeded /\
  snd QuotaExceeded = 429%Z.
Proof. vm_compute. repeat split. Qed.

Lemma bad_txid_rejected_witness :
  txid_of Demo.bad_txid = Ok (str "xyz") /\
  valid_txid (str "xyz") = false /\
  within_quota Demo.bad_txid (Demo.world 0) fresh /\
  db (fst (api_submit Demo.bad_txid (Demo.world 0) fresh)) = db fresh /\
  snd (api_submit Demo.bad_txid (Demo.world 0) fresh) = Ok BadTxid.
Proof.
  assert (Ht : txid_of Demo.bad_txid = Ok (str "xyz"))
    by (vm_compute; reflexivity).
  assert (Hv : valid_txid (str "xyz") = false) by reflexivity.
  assert (Hf : read_fields Demo.bad_txid =
               Ok {| f_txid := str "xyz"; f_alias := str "sam";
                     f_city := str "Nanaimo"; f_country := str "Canada" |})
    by (vm_compute; reflexivity).
  assert (Ha : within_quota Demo.bad_txid (Demo.world 0) fresh)
    by (vm_compute; reflexivity).
  destruct (bad_txid_rejected Demo.bad_txid (Demo.world 0) fresh _ Ht Hv)
    as (Hdb & Hresp).
  destruct (Hresp _ Hf) as (Hbad & _).
  exact (conj Ht (conj Hv (conj Ha (conj Hdb (Hbad Ha))))).
Defined.

(** C3 as it was claimed fails: the outputs to the address add up to a
    positive total, 2^1024 satoshis, which does not convert to a
    [float]; the division raises and the submission is answered as
    unverified. *)
Lemma huge_total_unverified :
  tx_json Demo.huge_tx
    [ {| vout_address := Some BTC_ADDRESS; vout_value := 2 ^ 1024 |} ] /\
  (0 < paid_to BTC_ADDRESS
         [ {| vout_address := Some BTC_ADDRESS; vout_value := 2 ^ 1024 |} ])%Z /\
  tx_amount_to_our_address_btc (Demo.world_huge 1000) Demo.txid_a BTC_ADDRESS =
    Raise OverflowError /\
  verify_payment (Demo.world_huge 1000) Demo.txid_a = None /\
  snd (api_submit Demo.nanaimo (Demo.world_huge 1000) fresh) = Ok Unverified.
Proof.
  split.
  - eexists _, _. split; [reflexivity|]. split; [reflexivity|].
    constructor; [|constructor].
    eexists. split; [reflexivity|]. split; reflexivity.
  - split; [vm_compute; reflexivity|].
    split; [vm_compute; reflexivity|]. split; vm_compute; reflexivity.
Qed.

(** The largest total that converts, and the smallest that does not. *)
Example btc_of_sats_range :
  btc_of_sats (2 ^ 1024 - 2 ^ 970 - 1) =
    Some (S754_finite false 6044629098073145 945) /\
  btc_of_sats (2 ^ 1024 - 2 ^ 970) = None.
Proof. split; vm_compute; reflexivity. Qed.

Lemma payment_verification_witness :
  within_quota Demo.nanaimo (Demo.world 1000) fresh /\
  snd (api_submit Demo.nanaimo (Demo.world 1000) fresh) = Ok Accepted /\
  exists r,
    rows (db (fst (api_submit Demo.nanaimo (Demo.world 1000) fresh))) =
      rows (db fresh) ++ [r] /\
    row_txid r = Demo.txid_a /\ row_amount_btc r = double_0_0015.
Proof.
  assert (Ha : within_quota Demo.nanaimo (Demo.world 1000) fresh)
    by (vm_compute; reflexivity).
  split; [exact Ha|].
  destruct payment_verification as (_ & _ & _ & _ & _ & H).
  eapply (H Demo.nanaimo (Demo.world 1000) fresh
            {| f_txid := Demo.txid_a; f_alias := str "sam";
               f_city := str "Nanaimo"; f_country := str "Canada" |}).
  - exact Ha.
  - vm_compute; reflexivity.
  - vm_compute; reflexivity.
  - vm_compute; discriminate.
  - vm_compute; discriminate.
  - reflexivity.
  - eexists _, _. split; [reflexivity | split; [reflexivity|]].
    constructor; [|constructor].
    eexists. split; [reflexivity | split; reflexivity].
  - vm_compute; reflexivity.
  - reflexivity.
  - reflexivity.
  - vm_compute; reflexivity.
  - simpl. tauto.
Defined.

(** A latitude that is not a number is bound as [NULL]: the [INSERT]
    fails on [NOT NULL], and the submission is answered with the
    Duplicate response although its txid is not stored. *)
Example nan_latitude_duplicate :
  rows (db fresh) = [] /\
  reaches_persist Demo.nanaimo (Demo.world_nan 1000) fresh /\
  snd (api_submit Demo.nanaimo (Demo.world_nan 1000) fresh) = Ok Duplicate /\
  db (fst (api_submit Demo.nanaimo (Demo.world_nan 1000) fresh)) = db fresh.
Proof.
  split; [reflexivity|]. split.
  - split; [vm_compute; reflexivity | eexists; vm_compute; reflexivity].
  - split; vm_compute; reflexivity.
Qed.

(** A latitude [-0.0] is stored, and listed, as [0.0]. *)
Example minus_zero_latitude_stored :
  resolve_location (Demo.world_minus_zero 1000) (str "Nanaimo") (str "Canada") =
    Some (S754_zero true, S754_finite true 8721509190254094 (-46)) /\
  snd (api_submit Demo.nanaimo (Demo.world_minus_zero 1000) fresh) = Ok Accepted /\
  List.map row_lat
    (rows (db (fst (api_submit Demo.nanaimo (Demo.world_minus_zero 1000) fresh)))) =
    [ S754_zero false ].
Proof. vm_compute. repeat split. Qed.

Lemma rejection_frame_witness :
  snd (api_submit Demo.bad_txid (Demo.world 0) fresh) = Ok BadTxid /\
  db (fst (api_submit Demo.bad_txid (Demo.world 0) fresh)) = db fresh /\
  log_json (fst (api_submit Demo.bad_txid (Demo.world 0) fresh)) = NoFile.
Proof.
  assert (Hr : snd (api_submit Demo.bad_txid (Demo.world 0) fresh) = Ok BadTxid)
    by (vm_compute; reflexivity).
  destruct (rejection_frame Demo.bad_txid (Demo.world 0) fresh) as [H _].
  destruct (H _ _ Hr) as (Hdb & Hlog & _); [right; reflexivity|].
  repeat split; auto.
Defined.

Lemma rate_limiter_window_witness :
  nth_error (snd (submit_all Demo.thirteen fresh)) 12 = Some (Ok QuotaExceeded) /\
  forall k r,
    nth_error (snd (submit_all Demo.thirteen fresh)) k = Some r ->
    (r = Ok QuotaExceeded <-> (12 <= k)%nat).
Proof.
  split; [vm_compute; reflexivity|].
  destruct rate_limiter_window as (_ & H & _).
  apply (H (str "203.0.113.7") Demo.thirteen fresh).
  - repeat constructor.
  - vm_compute. constructor.
  - vm_compute. repeat split; repeat constructor.
Defined.

Lemma export_artifact_witness :
  reachable (fst Demo.first_try) /\
  log_json (fst (export_log_json (Demo.world 2000) (fst Demo.first_try))) =
    Written
      (PyDict
         [ (str "project",
            PyDict [ (str "origin_label", PyStr (str "Vancouver Island, BC, Canada"));
                     (str "btc_address",
                      PyStr (str "bc1qexampleaddressxxxxxxxxxxxxxxxxxxxxxx"));
                     (str "exported_iso", PyStr (str "2024-05-01T12:00:01Z")) ]);
           (str "entries",
            PyList
              [ PyDict
                  [ (str "txid", PyStr Demo.txid_a);
                    (str "alias", PyStr (str "sam"));
                    (str "city", PyStr (str "Nanaimo"));
                    (str "country", PyStr (str "Canada"));
                    (str "lat", PyFloat (S754_finite false 6919485278729221 (-47)));
                    (str "lng", PyFloat (S754_finite true 8721509190254094 (-46)));
                    (str "amount_btc", PyFloat double_0_0015);
                    (str "iso_date", PyStr (str "2024-05-01T12:00:00Z")) ] ]) ]).
Proof.
  assert (Hr : reachable (fst Demo.first_try)).
  { exists [ (Submit Demo.nanaimo, Demo.world 1000) ]. reflexivity. }
  split; [exact Hr|].
  destruct (export_artifact (Demo.world 2000) (fst Demo.first_try))
    as (entries & sorted & _ & He & _ & _ & _ & _ & _ & Hreach & Hfile & _).
  destruct (Hreach Hr) as [Hs _]. specialize (Hfile eq_refl).
  rewrite He, Hs in Hfile. rewrite Hfile. vm_compute. reflexivity.
Defined.

Lemma export_idempotent_witness :
  exists d1 d2,
    log_json (fst (export_log_json (Demo.world 2000) (fst Demo.first_try))) =
      Written d1 /\
    log_json (fst (export_log_json (Demo.world_tx_down 2001)
                     (fst (export_log_json (Demo.world 2000) (fst Demo.first_try))))) =
      Written d2 /\
    d2 = with_exported_iso (str "2024-05-01T12:00:11Z") d1.
Proof.
  destruct (export_idempotent (Demo.world 2000) (Demo.world_tx_down 2001)
              (fst Demo.first_try) eq_refl eq_refl)
    as (d1 & d2 & H1 & H2 & _ & _ & H12 & _).
  exists d1, d2. repeat split; assumption.
Defined.

Lemma export_failure_isolated_witness :
  within_quota Demo.nanaimo (Demo.world 1000) fresh /\
  snd (api_submit Demo.nanaimo (with_fs (Demo.world 1000) DumpFails) fresh) =
    Ok Accepted /\
  log_json (fst (api_submit Demo.nanaimo (with_fs (Demo.world 1000) DumpFails) fresh)) =
    Truncated.
Proof.
  assert (Ha : within_quota Demo.nanaimo (Demo.world 1000) fresh)
    by (vm_compute; reflexivity).
  split; [exact Ha | split; [| vm_compute; reflexivity]].
  eapply (export_failure_isolated Demo.nanaimo (Demo.world 1000) fresh).
  - exact Ha.
  - vm_compute; reflexivity.
  - vm_compute; reflexivity.
Defined.

(** A txid that is a JSON number makes [sanitize_text] raise: the
    exception leaves the handler after the attempt was recorded, and no
    row is added. *)
Example number_txid_raises :
  api_submit Demo.number_txid (Demo.world 0) fresh =
    (record_attempt Demo.number_txid (Demo.world 0) fresh, Raise AttributeError).
Proof. vm_compute. reflexivity. Qed.

(** The key of the table is the txid as a string: the same hexadecimal
    number in capital letters is another key, and is stored again when
    the fact-source answers for it. *)
Example upper_case_txid_stored :
  snd Demo.upper_case_try = Ok Accepted /\
  List.map row_txid (rows (db (fst Demo.upper_case_try))) =
    [ repeat 97%N 64; repeat 65%N 64 ].
Proof. vm_compute. split; reflexivity. Qed.

(** C10 as it was claimed fails: the city field is cut at 60 characters,
    just after the space that follows a comma, and the accepted row
    stores a city that ends with that space. *)
Lemma trailing_space_stored :
  snd Demo.long_place_try = Ok Accepted /\
  exists r,
    rows (db (fst Demo.long_place_try)) = [r] /\
    length (row_city r) = 60%nat /\ ends_ws (row_city r) = true /\
    ~ entry_claimed r.
Proof.
  split; [vm_compute; reflexivity|].
  eexists. split; [vm_compute; reflexivity|].
  split; [reflexivity|]. split; [reflexivity|].
  intros (_ & (_ & _ & _ & H) & _). vm_compute in H. discriminate.
Qed.

Lemma ledger_well_formed_witness :
  Forall entry_ok (rows (db fresh)) /\
  Forall entry_ok
    (rows (db (step fresh (Submit Demo.long_place, Demo.world 1000)))).
Proof.
  assert (H0 : Forall entry_ok (rows (db fresh))) by constructor.
  split; [exact H0|].
  exact (proj1 ledger_well_formed fresh (Submit Demo.long_place, Demo.world 1000) H0).
Defined.

End Examples.

(** * Further properties *)

(** ** More on the sanitizer *)

Section SanitizerMore.

Implicit Types (s t u : pystr) (c : N) (b : bool) (n : nat).

Lemma re_sub_ws_only_spaces b s : only_spaces (re_sub_ws b s) = true.
Proof.
  revert b. induction s as [|c s IH]; intros b; simpl; auto.
  destruct (isspace c) eqn:Hc.
  - destruct b; auto. simpl. now rewrite IH.
  - simpl. now rewrite Hc, IH.
Qed.

Lemma only_spaces_app s t :
  only_spaces (s ++ t) = only_spaces s && only_spaces t.
Proof. apply forallb_app. Qed.

Lemma only_spaces_firstn n s : only_spaces s = true -> only_spaces (firstn n s) = true.
Proof.
  intros H. rewrite <- (firstn_skipn n s), only_spaces_app in H.
  now apply andb_true_iff in H.
Qed.

Lemma no_double_ws_app_l s t : no_double_ws (s ++ t) = true -> no_double_ws s = true.
Proof.
  induction s as [|c s IH]; simpl; auto.
  intros H. apply andb_true_iff in H as [Hc Hs]. rewrite IH by assumption.
  rewrite andb_true_r. destruct (isspace c); auto.
  destruct s; simpl in *; auto.
Qed.

(** A string without leading whitespace (when the scan is inside a run),
    without adjacent whitespace and with no whitespace but U+0020 is left
    as it is by the scan of [re.sub]. *)
Lemma re_sub_ws_fixed b s :
  (b = true -> starts_ws s = false) ->
  no_double_ws s = true -> only_spaces s = true ->
  re_sub_ws b s = s.
Proof.
  revert b. induction s as [|c s IH]; intros b Hb Hd Ho; simpl; auto.
  simpl in Hd, Ho. apply andb_true_iff in Hd as [Hc Hd].
  apply andb_true_iff in Ho as [Hsp Ho].
  destruct (isspace c) eqn:Ec.
  - simpl in Hsp. apply N.eqb_eq in Hsp. subst c.
    destruct b; [specialize (Hb eq_refl); simpl in Hb; congruence|].
    f_equal. apply IH; auto. intros _.
    simpl in Hc. now apply negb_true_iff in Hc.
  - f_equal. apply IH; auto. discriminate.
Qed.

Lemma lstrip_fixed s : starts_ws s = false -> lstrip s = s.
Proof. destruct s as [|c s]; simpl; auto. now intros ->. Qed.

Lemma ends_ws_app_blank s r :
  r <> [] -> forallb isspace r = true -> ends_ws (s ++ r) = true.
Proof.
  intros Hr Hall. induction s as [|c s IH].
  - simpl. induction r as [|d r IHr]; [congruence|].
    simpl in Hall. apply andb_true_iff in Hall as [Hd Hall].
    destruct r as [|e r]; [exact Hd|].
    rewrite ends_ws_cons by discriminate. apply IHr; [discriminate | assumption].
  - simpl app. rewrite ends_ws_cons; auto.
    destruct s; simpl; [assumption | discriminate].
Qed.

Lemma rstrip_fixed s : ends_ws s = false -> rstrip s = s.
Proof.
  intros He. destruct (rstrip_decomp s) as [r [Hs Hr]].
  destruct r as [|d r]; [now rewrite app_nil_r in Hs|].
  rewrite Hs in He. rewrite ends_ws_app_blank in He; [discriminate| |assumption].
  discriminate.
Qed.

Lemma rstrip_prefix_length s : (length (rstrip s) <= length s)%nat.
Proof.
  destruct (rstrip_decomp s) as [r [Hs _]]. rewrite Hs at 2.
  rewrite length_app. lia.
Qed.

Lemma sanitize_text_str_shape s max_len out :
  sanitize_text (PyStr s) max_len = Ok out ->
  starts_ws out = false /\ no_double_ws out = true /\ only_spaces out = true.
Proof.
  rewrite sanitize_text_str. intros [= <-]. unfold slice_to.
  destruct (strip_spec s) as (l & r & _ & _ & _ & Hst & _).
  destruct (0 <=? max_len)%Z; repeat split;
    first [ apply firstn_starts; now rewrite re_sub_ws_false_starts
          | apply firstn_no_double, re_sub_ws_no_double
          | apply only_spaces_firstn, re_sub_ws_only_spaces ].
Qed.

(** Sanitizing a sanitized string again only removes the space that the
    truncation may have left at its end; a result that does not end with
    whitespace is a fixed point. *)
Theorem sanitize_text_again s max_len out :
  (0 <= max_len)%Z ->
  sanitize_text (PyStr s) max_len = Ok out ->
  sanitize_text (PyStr out) max_len = Ok (rstrip out) /\
  (ends_ws out = false -> sanitize_text (PyStr out) max_len = Ok out).
Proof.
  intros Hn Hs.
  pose proof (sanitize_text_str_shape _ _ _ Hs) as (Hst & Hd & Ho).
  assert (Hlen : (length out <= Z.to_nat max_len)%nat).
  { pose proof (sanitize_text_shape _ _ _ Hn Hs). tauto. }
  assert (H : sanitize_text (PyStr out) max_len = Ok (rstrip out)).
  { rewrite sanitize_text_str, slice_to_nonneg by assumption.
    unfold strip. rewrite lstrip_fixed by assumption.
    destruct (rstrip_decomp out) as [r [Hr _]].
    rewrite re_sub_ws_fixed.
    - rewrite firstn_all2; auto. pose proof (rstrip_prefix_length out). lia.
    - discriminate.
    - rewrite Hr in Hd. now apply no_double_ws_app_l in Hd.
    - rewrite Hr, only_spaces_app in Ho. now apply andb_true_iff in Ho. }
  split; [exact H|]. intros He. now rewrite H, rstrip_fixed.
Qed.

Lemma sanitize_text_again_witness :
  (0 <= 2)%Z /\
  sanitize_text (PyStr (str "a  b")) 2 = Ok (str "a ") /\
  sanitize_text (PyStr (str "a ")) 2 = Ok (str "a").
Proof.
  assert (H0 : (0 <= 2)%Z) by lia.
  assert (H1 : sanitize_text (PyStr (str "a  b")) 2 = Ok (str "a "))
    by reflexivity.
  exact (conj H0 (conj H1 (proj1 (sanitize_text_again _ _ _ H0 H1)))).
Defined.

(** Whatever the input and the bound, the only whitespace character in a
    sanitized string is U+0020: tabs, line breaks and the other Unicode
    spaces never survive. *)
Theorem sanitize_text_no_control_space v max_len out :
  sanitize_text v max_len = Ok out ->
  Forall (fun c => isspace c = true -> c = SPACE) out.
Proof.
  unfold sanitize_text, or_empty_strip.
  destruct (py_or v (PyStr [])) as [| | | |t| |]; simpl; try discriminate.
  intros [= <-].
  assert (H : only_spaces (slice_to max_len (re_sub_ws false (strip t))) = true).
  { unfold slice_to. destruct (0 <=? max_len)%Z;
      apply only_spaces_firstn, re_sub_ws_only_spaces. }
  unfold only_spaces in H. rewrite forallb_forall in H.
  apply Forall_forall. intros c Hc Hsp. apply list_elem_of_In in Hc.
  specialize (H c Hc). rewrite Hsp in H. simpl in H. now apply N.eqb_eq in H.
Qed.

Lemma sanitize_text_no_control_space_witness :
  sanitize_text (PyStr [97; 9; 10; 98]%N) 60 = Ok [97; 32; 98]%N /\
  Forall (fun c => isspace c = true -> c = SPACE) [97; 32; 98]%N.
Proof.
  assert (H : sanitize_text (PyStr [97; 9; 10; 98]%N) 60 = Ok [97; 32; 98]%N)
    by reflexivity.
  exact (conj H (sanitize_text_no_control_space _ _ _ H)).
Defined.

Lemma non_ws_app s t : non_ws (s ++ t) = non_ws s ++ non_ws t.
Proof. apply List.filter_app. Qed.

Lemma non_ws_blank r : forallb isspace r = true -> non_ws r = [].
Proof.
  induction r as [|c r IH]; simpl; auto. intros H.
  apply andb_true_iff in H as [-> Hr]. simpl. auto.
Qed.

Lemma non_ws_re_sub_ws b s : non_ws (re_sub_ws b s) = non_ws s.
Proof.
  revert b. induction s as [|c s IH]; intros b; simpl; auto.
  destruct (isspace c) eqn:Hc; simpl.
  - destruct b; simpl; auto.
  - rewrite Hc. simpl. now rewrite IH.
Qed.

(** The sanitizer neither invents nor reorders characters: the
    non-whitespace characters of the result are the first ones of the
    input, in the same order. *)
Theorem sanitize_text_keeps_characters s max_len out :
  sanitize_text (PyStr s) max_len = Ok out ->
  exists rest, non_ws s = non_ws out ++ rest.
Proof.
  rewrite sanitize_text_str. intros [= <-].
  destruct (strip_spec s) as (l & r & Hs & Hl & Hr & _).
  assert (Hnw : non_ws s = non_ws (re_sub_ws false (strip s))).
  { rewrite Hs at 1.
    rewrite !non_ws_app, (non_ws_blank l), (non_ws_blank r) by assumption.
    now rewrite app_nil_r, non_ws_re_sub_ws. }
  rewrite Hnw. unfold slice_to.
  destruct (0 <=? max_len)%Z;
    match goal with |- context [firstn ?k ?u] =>
      exists (non_ws (skipn k u));
      rewrite <- non_ws_app, firstn_skipn; reflexivity
    end.
Qed.

Lemma sanitize_text_keeps_characters_witness :
  sanitize_text (PyStr (str " a  bc d ")) 4 = Ok (str "a bc") /\
  exists rest, non_ws (str " a  bc d ") = non_ws (str "a bc") ++ rest.
Proof.
  assert (H : sanitize_text (PyStr (str " a  bc d ")) 4 = Ok (str "a bc"))
    by reflexivity.
  exact (conj H (sanitize_text_keeps_characters _ _ _ H)).
Defined.

End SanitizerMore.

(** ** The txid field *)

Section TxidField.

Implicit Types (s t u v : pystr) (c : N).

Lemma is_hex_not_space c : is_hex c = true -> isspace c = false.
Proof.
  unfold is_hex, isspace.
  rewrite !orb_true_iff, !andb_true_iff, !N.leb_le.
  rewrite !orb_false_iff, !andb_false_iff, !N.leb_gt, !N.eqb_neq. lia.
Qed.

Lemma lstrip_skip l s : forallb isspace l = true -> lstrip (l ++ s) = lstrip s.
Proof.
  induction l as [|c l IH]; simpl; auto. intros H.
  apply andb_true_iff in H as [-> Hl]. auto.
Qed.

Lemma rstrip_solid u v :
  forallb is_hex u = true -> rstrip (u ++ v) = u ++ rstrip v.
Proof.
  induction u as [|c u IH]; simpl app; auto. intros H.
  simpl in H. apply andb_true_iff in H as [Hc Hu].
  rewrite rstrip_cons, IH by assumption. apply is_hex_not_space in Hc.
  rewrite Hc. now destruct (u ++ rstrip v).
Qed.

Lemma re_sub_ws_solid b u v :
  forallb is_hex u = true ->
  firstn (length u) (re_sub_ws b (u ++ v)) = u.
Proof.
  revert b. induction u as [|c u IH]; intros b H; [reflexivity|].
  simpl in H. apply andb_true_iff in H as [Hc Hu].
  simpl. rewrite (is_hex_not_space _ Hc). simpl. now rewrite IH.
Qed.

(** The txid is cut to 64 characters before it is validated: leading
    whitespace and everything that follows 64 hexadecimal characters are
    dropped without notice, and the submission is handled as those 64
    characters. *)
Theorem txid_tail_ignored l t extra :
  forallb isspace l = true -> valid_txid t = true ->
  sanitize_text (PyStr (l ++ t ++ extra)) 64 = Ok t.
Proof.
  intros Hl Hv. unfold valid_txid in Hv.
  apply andb_true_iff in Hv as [Hlen Hhex]. apply Nat.eqb_eq in Hlen.
  rewrite sanitize_text_str, slice_to_nonneg by lia. f_equal.
  unfold strip. rewrite lstrip_skip by assumption.
  rewrite lstrip_fixed.
  - rewrite rstrip_solid by assumption.
    change (Z.to_nat 64) with 64%nat. rewrite <- Hlen.
    now apply re_sub_ws_solid.
  - destruct t as [|c t]; [discriminate|]. simpl in *.
    apply andb_true_iff in Hhex as [Hc _]. now apply is_hex_not_space.
Qed.

Lemma txid_tail_ignored_witness :
  forallb isspace (str " ") = true /\
  valid_txid (repeat 97%N 64) = true /\
  sanitize_text (PyStr (str " " ++ repeat 97%N 64 ++ str "; drop table")) 64 =
    Ok (repeat 97%N 64).
Proof.
  assert (H1 : forallb isspace (str " ") = true) by reflexivity.
  assert (H2 : valid_txid (repeat 97%N 64) = true) by reflexivity.
  exact (conj H1 (conj H2 (txid_tail_ignored _ _ (str "; drop table") H1 H2))).
Defined.

End TxidField.

(** ** More on the handler *)

Section HandlerMore.

Context {cfg : Config} {py : Builtins}.

(** An accepted submission, in full: what passed the gates and the row
    that was appended. *)
Lemma api_submit_accepted_row rq w st :
  snd (api_submit rq w st) = Ok Accepted ->
  exists f amount lat lng,
    within_quota rq w st /\ read_fields rq = Ok f /\
    valid_txid (f_txid f) = true /\
    verify_payment w (f_txid f) = Some amount /\
    resolve_location w (f_city f) (f_country f) = Some (lat, lng) /\
    ~ In (f_txid f) (List.map row_txid (rows (db st))) /\
    fst (api_submit rq w st) =
      fst (export_log_json w
             (with_db (record_attempt rq w st)
                {| rows := rows (db st) ++
                     [ row_of (seq (db st) + 1) f lat lng amount (now_iso w) ];
                   seq := seq (db st) + 1 |})).
Proof.
  destruct (api_submit_outcome rq w st)
    as [Hl | e Ha Hg | early Ha Hg | c Ha Hg Hi | c t' Ha Hg Hi | c Ha Hg Hi]; cbn [fst snd];
    try discriminate.
  - destruct (gates_early _ _ _ Hg) as [-> | [-> | [-> | ->]]]; discriminate.
  - intros _. pose proof (gates_pass _ _ _ Hg) as (Hf & Hv & _ & _ & Hp & Hloc & Hiso).
    exists (c_fields c), (c_amount_btc c), (c_lat c), (c_lng c).
    destruct (insert_candidate_cases (db st) c)
      as [[_ H] | [(_ & _ & H) | (_ & _ & Hfresh & H)]]; try congruence.
    rewrite H in Hi. injection Hi as <-. rewrite Hiso.
    repeat split; auto.
Qed.

Lemma api_submit_not_accepted rq w st :
  snd (api_submit rq w st) <> Ok Accepted ->
  fst (api_submit rq w st) = record_attempt rq w st.
Proof.
  destruct (api_submit_outcome rq w st)
    as [Hl | e Ha Hg | early Ha Hg | c Ha Hg Hi | c t' Ha Hg Hi | c Ha Hg Hi]; cbn [fst snd];
    auto. congruence.
Qed.

(** The table changes exactly when the answer is the acceptance. Any
    other outcome (429, 400, 409 or an exception) leaves table and file
    alone; an acceptance appends one row, with the next id, the sanitized
    fields, the verified amount, the resolved coordinates and the clock
    reading, for a txid that was not yet stored. *)
Theorem table_changes_iff_accepted rq w st :
  (snd (api_submit rq w st) <> Ok Accepted /\
   db (fst (api_submit rq w st)) = db st /\
   log_json (fst (api_submit rq w st)) = log_json st)
  \/
  (snd (api_submit rq w st) = Ok Accepted /\
   exists f amount lat lng,
     read_fields rq = Ok f /\
     verify_payment w (f_txid f) = Some amount /\
     resolve_location w (f_city f) (f_country f) = Some (lat, lng) /\
     ~ In (f_txid f) (List.map row_txid (rows (db st))) /\
     db (fst (api_submit rq w st)) =
       {| rows := rows (db st) ++
            [ row_of (seq (db st) + 1) f lat lng amount (now_iso w) ];
          seq := seq (db st) + 1 |}).
Proof.
  destruct (api_submit_rows rq w st) as [[_ Hne] | H].
  - left. split; [exact Hne|]. now rewrite (api_submit_not_accepted _ _ _ Hne).
  - right. destruct H as (_ & _ & _ & _ & _ & _ & _ & _ & _ & _ & _ & _ & Hacc).
    split; [exact Hacc|].
    destruct (api_submit_accepted_row _ _ _ Hacc)
      as (f & amount & lat & lng & _ & Hf & _ & Hp & Hloc & Hfresh & Hst).
    exists f, amount, lat, lng. rewrite Hst, export_log_json_db.
    repeat split; auto.
Qed.

(** Along any run of submissions the table grows by one row per 200
    response, and by nothing else. *)
Theorem rows_count_accepted l st :
  length (rows (db (fst (submit_all l st)))) =
  (length (rows (db st)) + length (List.filter is_accepted (snd (submit_all l st))))%nat.
Proof.
  revert st. induction l as [|[rq w] l IH]; intros st; simpl.
  - lia.
  - destruct (api_submit rq w st) as [st1 r] eqn:Hsub.
    destruct (submit_all l st1) as [st2 rs] eqn:Hall. cbn [fst snd].
    specialize (IH st1). rewrite Hall in IH. cbn [fst snd] in IH.
    rewrite IH. simpl.
    destruct (api_submit_rows rq w st) as [[Hdb Hne] | H];
      rewrite Hsub in *; cbn [fst snd] in *.
    + rewrite Hdb.
      assert (is_accepted r = false) as ->; [|lia].
      destruct (api_submit_outcome rq w st)
        as [Hl | e Ha Hg | early Ha Hg | c Ha Hg Hi | c t' Ha Hg Hi | c Ha Hg Hi];
        injection Hsub as _ <-; try reflexivity; try congruence.
      destruct (gates_early _ _ _ Hg) as [-> | [-> | [-> | ->]]]; reflexivity.
    + destruct H as (c & r0 & _ & _ & _ & -> & _ & _ & _ & _ & _ & _ & ->).
      simpl. rewrite length_app. simpl. lia.
Qed.

Lemma api_submit_stopped rq w w' st :
  time_time w' = time_time w -> gates rq w' = gates rq w ->
  stopped_by_gates rq w ->
  api_submit rq w' st = api_submit rq w st.
Proof.
  intros Ht Hg Hs. unfold api_submit, stopped_by_gates in *. rewrite Ht, Hg.
  destruct (rate_limited _ _ _) as [hits limited]. destruct limited; auto.
  destruct (gates rq w) as [[early|c]|e]; auto. contradiction.
Qed.

(** The gates are passed in order and each one looks at nothing that
    comes after it: a request over quota is answered without its body or
    any fact-source being read; a request with a bad txid or without place
    is answered without any fact-source being consulted; an unverified
    payment is answered without the geocoder being consulted. *)
Theorem gates_in_order rq w st :
  (forall rq' w',
      ~ within_quota rq w st -> client_ip rq' = client_ip rq ->
      time_time w' = time_time w ->
      api_submit rq' w' st = api_submit rq w st) /\
  (forall w' f,
      read_fields rq = Ok f ->
      valid_txid (f_txid f) = false \/ f_city f = [] \/ f_country f = [] ->
      time_time w' = time_time w ->
      api_submit rq w' st = api_submit rq w st) /\
  (forall w' f,
      read_fields rq = Ok f -> verify_payment w (f_txid f) = None ->
      time_time w' = time_time w -> (forall t, tx_http w' t = tx_http w t) ->
      api_submit rq w' st = api_submit rq w st).
Proof.
  split; [|split].
  - intros rq' w' Hq Hip Ht. unfold within_quota in Hq.
    unfold api_submit. rewrite Hip, Ht.
    destruct (rate_limited _ _ _) as [hits limited]. simpl in Hq.
    destruct limited; [reflexivity | congruence].
  - intros w' f Hf Hbad Ht. apply api_submit_stopped; auto.
    + unfold gates. rewrite Hf. simpl.
      destruct (valid_txid (f_txid f)); simpl; auto.
      destruct Hbad as [H | [-> | ->]]; [discriminate | reflexivity|].
      simpl. now rewrite orb_true_r.
    + unfold stopped_by_gates, gates. rewrite Hf. simpl.
      destruct (valid_txid (f_txid f)); simpl; auto.
      destruct Hbad as [H | [-> | ->]]; [discriminate | exact I|].
      simpl. rewrite orb_true_r. exact I.
  - intros w' f Hf Hp Ht Htx.
    assert (Hp' : verify_payment w' (f_txid f) = None).
    { unfold verify_payment, tx_amount_to_our_address_btc in *.
      now rewrite Htx. }
    apply api_submit_stopped; auto.
    + unfold gates. rewrite Hf. simpl. now rewrite Hp, Hp'.
    + unfold stopped_by_gates, gates. rewrite Hf. simpl. rewrite Hp.
      destruct (negb _); [exact I|]. now destruct (_ || _).
Qed.

Lemma api_submit_other_origin rq w st ip :
  ip <> client_ip rq ->
  _ip_hits (fst (api_submit rq w st)) !! ip = _ip_hits st !! ip.
Proof.
  intros Hne. rewrite api_submit_hits. unfold rate_limited. cbn [fst].
  now rewrite lookup_insert_ne.
Qed.

(** A submission touches the attempts of its own origin only, and leaves
    that origin on record: no origin is ever forgotten while the process
    runs. *)
Theorem origins_isolated rq w st :
  (forall ip, ip <> client_ip rq ->
     _ip_hits (fst (api_submit rq w st)) !! ip = _ip_hits st !! ip) /\
  exists kept,
    _ip_hits (fst (api_submit rq w st)) !! client_ip rq =
      Some (kept ++ [time_time w]).
Proof.
  split.
  - intros ip Hne. now apply api_submit_other_origin.
  - rewrite api_submit_hits. unfold rate_limited. cbn [fst].
    eexists. now rewrite lookup_insert_eq.
Qed.

(** The quota is per value of [client_ip]: submissions that each come
    with an origin not on record and different from the others (a new
    [X-Forwarded-For] value every time) are never answered with 429,
    however many and however fast they come. *)
Theorem new_origins_never_limited l st :
  NoDup (List.map (fun x => client_ip (fst x)) l) ->
  Forall (fun x => _ip_hits st !! client_ip (fst x) = None) l ->
  Forall (fun r => r <> Ok QuotaExceeded) (snd (submit_all l st)).
Proof.
  revert st. induction l as [|[rq w] l IH]; intros st Hnd Hnew; simpl.
  - constructor.
  - destruct (api_submit rq w st) as [st1 r] eqn:Hsub.
    destruct (submit_all l st1) as [st2 rs] eqn:Hall. cbn [snd].
    simpl in Hnd. apply NoDup_cons in Hnd as [Hnotin Hnd].
    apply List.Forall_cons_iff in Hnew as [Hrq Hnew]. simpl in Hrq.
    constructor.
    + replace r with (snd (api_submit rq w st)) by now rewrite Hsub.
      rewrite quota_iff. intros Hq. apply Hq.
      unfold within_quota, rate_limited. cbn [snd]. rewrite Hrq. reflexivity.
    + specialize (IH st1 Hnd). rewrite Hall in IH. apply IH.
      apply Forall_forall. intros x Hx. apply list_elem_of_In in Hx.
      replace st1 with (fst (api_submit rq w st)) by now rewrite Hsub.
      rewrite api_submit_other_origin.
      * rewrite List.Forall_forall in Hnew. now apply Hnew.
      * intros Heq. apply Hnotin. apply list_elem_of_In.
        rewrite <- Heq. now apply (in_map (fun x => client_ip (fst x))).
Qed.

End HandlerMore.

(** ** What the [INSERT] decides *)

Section InsertDecides.

Context {cfg : Config} {py : Builtins}.

(** A request that passed the rate check and the gates is answered by
    the [INSERT] alone. If one of its texts holds a surrogate, binding
    raises [UnicodeEncodeError], which nothing catches, whether or not
    the txid is stored. Otherwise, if a coordinate or the amount is NaN
    (bound as [NULL], refused by [NOT NULL]) or the txid is stored, the
    answer is the Duplicate response: it is given for a txid that is not
    stored, too. In both cases table and file stay as they were.
    Otherwise the request is accepted and its row appended. *)
Theorem insert_decides rq w st c :
  within_quota rq w st -> gates rq w = Ok (inr c) ->
  (bindable c = false ->
   api_submit rq w st = (record_attempt rq w st, Raise UnicodeEncodeError)) /\
  (bindable c = true ->
   is_nan (c_lat c) || is_nan (c_lng c) || is_nan (c_amount_btc c) = true \/
   In (f_txid (c_fields c)) (List.map row_txid (rows (db st))) ->
   api_submit rq w st = (record_attempt rq w st, Ok Duplicate)) /\
  (bindable c = true ->
   is_nan (c_lat c) || is_nan (c_lng c) || is_nan (c_amount_btc c) = false ->
   ~ In (f_txid (c_fields c)) (List.map row_txid (rows (db st))) ->
   snd (api_submit rq w st) = Ok Accepted /\
   db (fst (api_submit rq w st)) =
     {| rows := rows (db st) ++
          [ row_of (seq (db st) + 1) (c_fields c) (c_lat c) (c_lng c)
              (c_amount_btc c) (c_iso_date c) ];
        seq := seq (db st) + 1 |}).
Proof.
  intros Hq Hg. rewrite (api_submit_at_insert _ _ _ _ Hq Hg).
  destruct (insert_candidate_cases (db st) c)
    as [[Hb H] | [(Hb & Hbad & H) | (Hb & Hnum & Hfresh & H)]]; rewrite H.
  - split; [reflexivity|]. split; congruence.
  - split; [congruence|]. split; [reflexivity|].
    intros _ Hnum Hfresh. destruct Hbad; [congruence | contradiction].
  - split; [congruence|]. split.
    + intros _ [Hbad | Hin]; [congruence | contradiction].
    + intros _ _ _. cbn [fst snd]. now rewrite export_log_json_db.
Qed.

Lemma stored_real_ok x : is_nan x = false -> real_ok (stored_real x).
Proof. unfold real_ok. destruct x; simpl; intros; split; congruence. Qed.

Lemma api_submit_numbers rq w st :
  Forall row_numbers (rows (db st)) ->
  Forall row_numbers (rows (db (fst (api_submit rq w st)))).
Proof.
  intros Hok. destruct (api_submit_rows rq w st) as [[-> _] | H]; auto.
  destruct H as (c & r & Hq & Hg & Hfresh & Hdb & _ & _ & _ & _ & _ & -> & _).
  rewrite (api_submit_at_insert _ _ _ _ Hq Hg) in Hdb |- *.
  destruct (insert_candidate_cases (db st) c)
    as [[_ H] | [(_ & _ & H) | (_ & Hnum & _ & H)]]; rewrite H in Hdb |- *;
    cbn [fst] in Hdb |- *; auto.
  rewrite export_log_json_db. cbn [db with_db rows].
  apply Forall_app. split; auto. constructor; [|constructor].
  apply orb_false_iff in Hnum as [Hnum Ham].
  apply orb_false_iff in Hnum as [Hlat Hlng].
  unfold row_numbers, row_of. cbn [row_lat row_lng row_amount_btc].
  repeat split; now apply stored_real_ok.
Qed.

(** The numbers of the table are numbers: every operation keeps, and
    every state reached from a fresh deployment has, only rows whose
    latitude, longitude and amount are not NaN and are not the negative
    zero. *)
Theorem stored_numbers :
  (forall st o,
      Forall row_numbers (rows (db st)) ->
      Forall row_numbers (rows (db (step st o)))) /\
  (forall trace, Forall row_numbers (rows (db (run trace fresh)))).
Proof.
  assert (Hstep : forall st o,
    Forall row_numbers (rows (db st)) -> Forall row_numbers (rows (db (step st o)))).
  { intros st o Hok. destruct (step_db st o) as [-> | (rq & _ & ->)]; auto.
    now apply api_submit_numbers. }
  split; [exact Hstep|].
  intros trace. unfold run.
  assert (H : Forall row_numbers (rows (db fresh))) by constructor.
  revert H. generalize fresh.
  induction trace as [|o trace IH]; intros st Hok; simpl; auto.
Qed.

End InsertDecides.

(** ** The log after a submission, and the exported file *)

Section LogAndFile.

Context {cfg : Config} {py : Builtins}.

Lemma export_document_rows iso t :
  StronglySorted Z.lt (List.map row_id (rows t)) ->
  export_document iso t = document_of_rows iso (rows t).
Proof.
  intros Hs. unfold export_document, document_of_rows.
  rewrite select_order_by_id_sorted by assumption.
  now rewrite (map_ext _ _ entry_json_of_row).
Qed.

Lemma entry_of_row_of id f lat lng amount iso :
  entry_of_row (row_of id f lat lng amount iso) =
  PyDict [ (str "txid", PyStr (f_txid f)); (str "alias", PyStr (f_alias f));
           (str "city", PyStr (f_city f)); (str "country", PyStr (f_country f));
           (str "lat", PyFloat (stored_real lat));
           (str "lng", PyFloat (stored_real lng));
           (str "amount_btc", PyFloat (stored_real amount));
           (str "iso_date", PyStr iso) ].
Proof. reflexivity. Qed.

(** Submit, then read: after an accepted submission [GET /api/log] lists
    the entries that were there before, in their order, followed by one
    entry that carries the sanitized fields of the request, the verified
    amount, the resolved coordinates and the acceptance time, the three
    numbers as the [REAL] columns give them back (a zero without its
    sign); the exported file holds the same list when the write
    succeeded. *)
Theorem accepted_entry_is_listed rq w w' st :
  table_ok (db st) -> snd (api_submit rq w st) = Ok Accepted ->
  exists f amount lat lng entries,
    read_fields rq = Ok f /\
    verify_payment w (f_txid f) = Some amount /\
    resolve_location w (f_city f) (f_country f) = Some (lat, lng) /\
    entries =
      List.map entry_of_row (rows (db st)) ++
      [ PyDict [ (str "txid", PyStr (f_txid f)); (str "alias", PyStr (f_alias f));
                 (str "city", PyStr (f_city f));
                 (str "country", PyStr (f_country f));
                 (str "lat", PyFloat (stored_real lat));
                 (str "lng", PyFloat (stored_real lng));
                 (str "amount_btc", PyFloat (stored_real amount));
                 (str "iso_date", PyStr (now_iso w)) ] ] /\
    api_log w' (fst (api_submit rq w st)) =
      PyDict [ (str "project", project_json (export_iso w'));
               (str "entries", PyList entries) ] /\
    (fs w = WriteOk ->
     log_json (fst (api_submit rq w st)) =
       Written (PyDict [ (str "project", project_json (export_iso w));
                         (str "entries", PyList entries) ])).
Proof.
  intros Hok Hacc.
  pose proof (api_submit_table_ok rq w st Hok) as [_ Hs' _].
  destruct (api_submit_accepted_row _ _ _ Hacc)
    as (f & amount & lat & lng & _ & Hf & _ & Hp & Hloc & _ & Hst).
  exists f, amount, lat, lng. eexists. repeat split; eauto.
  - unfold api_log. rewrite export_document_rows by assumption.
    rewrite Hst, export_log_json_db. cbn [db with_db rows].
    unfold document_of_rows. rewrite map_app. simpl.
    now rewrite entry_of_row_of.
  - intros Hfs. rewrite Hst in Hs' |- *. rewrite export_log_json_db in Hs'.
    unfold export_log_json. rewrite Hfs. cbn [fst log_json].
    rewrite export_document_rows by assumption. cbn [db with_db rows].
    unfold document_of_rows. rewrite map_app. simpl.
    now rewrite entry_of_row_of.
Qed.






End LogAndFile.

(** ** More on the fact-source clients *)

Section FactSources.

Context {cfg : Config} {py : Builtins}.

Lemma sum_vouts_loose addr items outs :
  Forall2 (loose_vout addr) items outs ->
  forall sats, sum_vouts addr items sats = Ok (sats + paid_to addr outs)%Z.
Proof.
  induction 1 as [|j o items outs Hj _ IH]; intros sats.
  - simpl. f_equal. unfold paid_to. simpl. lia.
  - destruct Hj as (d & -> & Haddr & Hval).
    rewrite paid_to_cons. unfold pays in *. simpl.
    destruct (vout_address o) as [a|].
    + rewrite Haddr. simpl. destruct (pystr_eqb a addr).
      * destruct (Hval eq_refl) as [-> | [-> ->]]; simpl; rewrite IH;
          f_equal; lia.
      * apply IH.
    + destruct Haddr as [-> | ->]; simpl; apply IH.
Qed.

(** Only the outputs that pay the configured address have their value
    read: the other outputs may hold anything, or nothing, as value, and
    a paying output without a value counts for zero. The amount is the
    total divided by 10^8 in binary64 when the total is positive and
    converts to a double; a total that is not positive or is beyond the
    doubles, and a reply without an output list, are "unverified". *)
Theorem verify_payment_reads_paying_outputs w txid d :
  tx_http w txid = HttpResp 200 (Ok (PyDict d)) ->
  (forall items outs,
      assoc (str "vout") d = Some (PyList items) ->
      Forall2 (loose_vout BTC_ADDRESS) items outs ->
      verify_payment w txid =
        if (0 <? paid_to BTC_ADDRESS outs)%Z
        then btc_of_sats (paid_to BTC_ADDRESS outs)
        else None) /\
  (assoc (str "vout") d = None -> verify_payment w txid = None).
Proof.
  intros Hhttp. unfold verify_payment, tx_amount_to_our_address_btc.
  rewrite Hhttp. simpl. split.
  - intros items outs -> Hitems. simpl.
    rewrite (sum_vouts_loose _ _ _ Hitems). simpl bind.
    rewrite Z.add_0_l, int_truediv_1e8.
    destruct (Z.leb_spec (paid_to BTC_ADDRESS outs) 0);
      destruct (Z.ltb_spec 0 (paid_to BTC_ADDRESS outs)); try lia;
      [reflexivity|].
    now destruct (btc_of_sats (paid_to BTC_ADDRESS outs)).
  - intros ->. reflexivity.
Qed.

(** The resolver is decided by the first candidate of the reply alone:
    its [lat] and [lon], converted with [float], are the coordinates, and
    when it lacks one of them or one does not convert the outcome is
    "could not resolve", whatever candidates follow. *)
Theorem resolve_location_first_candidate w city country first rest :
  geo_http w (city ++ str ", " ++ country) =
    HttpResp 200 (Ok (PyList (first :: rest))) ->
  resolve_location w city country = first_candidate first.
Proof.
  intros Hhttp. unfold resolve_location, geocode_city_country.
  rewrite Hhttp. simpl. unfold first_candidate.
  destruct first as [| | | | |l|d]; simpl; auto.
  destruct (assoc (str "lat") d) as [la|]; simpl; auto.
  destruct (py_float la) as [lat|]; simpl; auto.
  destruct (assoc (str "lon") d) as [lo|]; simpl; auto.
  destruct (py_float lo) as [lon|]; simpl; auto.
Qed.

Lemma stat_read j section key v :
  stat j section key v ->
  exists sect x,
    py_get (PyDict j) section (PyDict []) = Ok sect /\
    py_get sect key (PyInt 0) = Ok x /\ py_int x = Ok v.
Proof.
  unfold stat. destruct (assoc section j) as [sect|] eqn:Es.
  - destruct sect as [| | | | | |d]; try contradiction.
    destruct (assoc key d) as [x|] eqn:Ek.
    + destruct x as [| |z| | | |]; try contradiction. intros ->.
      exists (PyDict d), (PyInt z). unfold py_get. rewrite Es, Ek. auto.
    + intros ->. exists (PyDict d), (PyInt 0). unfold py_get.
      rewrite Es, Ek. auto.
  - intros ->. exists (PyDict []), (PyInt 0). unfold py_get. rewrite Es. auto.
Qed.

Lemma address_balance_stats w addr j cf mf cs ms :
  addr_http w addr = HttpResp 200 (Ok (PyDict j)) ->
  stat j (str "chain_stats") (str "funded_txo_sum") cf ->
  stat j (str "mempool_stats") (str "funded_txo_sum") mf ->
  stat j (str "chain_stats") (str "spent_txo_sum") cs ->
  stat j (str "mempool_stats") (str "spent_txo_sum") ms ->
  address_balance_btc w addr =
    match btc_of_sats (cf + mf - (cs + ms)) with
    | Some balance => Ok (Some balance)
    | None => Raise OverflowError
    end.
Proof.
  intros Hhttp H1 H2 H3 H4. unfold address_balance_btc. rewrite Hhttp.
  destruct (stat_read _ _ _ _ H1) as (chain & x1 & Hc & Hx1 & Hn1).
  destruct (stat_read _ _ _ _ H2) as (mem & x2 & Hm & Hx2 & Hn2).
  destruct (stat_read _ _ _ _ H3) as (chain' & x3 & Hc' & Hx3 & Hn3).
  destruct (stat_read _ _ _ _ H4) as (mem' & x4 & Hm' & Hx4 & Hn4).
  rewrite Hc in Hc'. injection Hc' as <-.
  rewrite Hm in Hm'. injection Hm' as <-.
  change (negb (200 =? 200)%Z) with false. cbn [bind].
  rewrite Hc. cbn [bind]. rewrite Hm. cbn [bind].
  rewrite Hx1. cbn [bind]. rewrite Hn1. cbn [bind].
  rewrite Hx2. cbn [bind]. rewrite Hn2. cbn [bind].
  rewrite Hx3. cbn [bind]. rewrite Hn3. cbn [bind].
  rewrite Hx4. cbn [bind]. rewrite Hn4. cbn [bind].
  rewrite int_truediv_1e8.
  now destruct (btc_of_sats (cf + mf - (cs + ms))).
Qed.

(** [GET /api/stats]: when the address lookup errs, is refused or cannot
    be decoded the balance is [null] and the rest of the answer is
    unchanged; on a decoded reply the balance is the funded totals minus
    the spent totals, confirmed plus unconfirmed, divided by 10^8 in
    binary64, a missing section or total counting for zero; when that
    difference is beyond the doubles the division raises and the balance
    is [null] too. *)
Theorem api_stats_balance w :
  (balance_lookup_fails w ->
   api_stats w =
     PyDict [ (str "btc_address", PyStr BTC_ADDRESS);
              (str "origin_label", PyStr ORIGIN_LABEL);
              (str "balance_btc", PyNone);
              (str "iso_date", PyStr (stats_iso w)) ]) /\
  (forall j cf mf cs ms,
      addr_http w BTC_ADDRESS = HttpResp 200 (Ok (PyDict j)) ->
      stat j (str "chain_stats") (str "funded_txo_sum") cf ->
      stat j (str "mempool_stats") (str "funded_txo_sum") mf ->
      stat j (str "chain_stats") (str "spent_txo_sum") cs ->
      stat j (str "mempool_stats") (str "spent_txo_sum") ms ->
      api_stats w =
        PyDict [ (str "btc_address", PyStr BTC_ADDRESS);
                 (str "origin_label", PyStr ORIGIN_LABEL);
                 (str "balance_btc",
                  match btc_of_sats (cf + mf - (cs + ms)) with
                  | Some balance => PyFloat balance
                  | None => PyNone
                  end);
                 (str "iso_date", PyStr (stats_iso w)) ]).
Proof.
  split.
  - unfold balance_lookup_fails, api_stats, address_balance_btc.
    destruct (addr_http w BTC_ADDRESS) as [e|code json]; [reflexivity|].
    intros [Hcode | [e ->]].
    + apply Z.eqb_neq in Hcode. now rewrite Hcode.
    + now destruct (negb _).
  - intros j cf mf cs ms Hhttp H1 H2 H3 H4. unfold api_stats.
    rewrite (address_balance_stats _ _ _ _ _ _ _ Hhttp H1 H2 H3 H4).
    now destruct (btc_of_sats (cf + mf - (cs + ms))).
Qed.

End FactSources.

(** ** Start-up *)

Section StartUp.

Context {py : Builtins}.

Lemma insert_or_ignore_present (k v : pystr) (m : gmap pystr pystr) :
  is_Some (m !! k) -> insert_or_ignore k v m = m.
Proof. intros [x Hx]. unfold insert_or_ignore. now rewrite Hx. Qed.

Lemma insert_or_ignore_lookup (k v : pystr) (m : gmap pystr pystr) :
  is_Some (insert_or_ignore k v m !! k).
Proof.
  unfold insert_or_ignore. destruct (m !! k) as [x|] eqn:Hx.
  - rewrite Hx. eauto.
  - rewrite lookup_insert_eq. eauto.
Qed.

Lemma insert_or_ignore_keeps (k v : pystr) (m : gmap pystr pystr) (k' x : pystr) :
  m !! k' = Some x -> insert_or_ignore k v m !! k' = Some x.
Proof.
  intros Hx. unfold insert_or_ignore. destruct (m !! k) as [y|] eqn:Hy; auto.
  rewrite lookup_insert_ne; auto. congruence.
Qed.

(** [init_db] sets things once: run again, even under another configured
    address and label, it changes nothing; it keeps the entries that are
    there and every value already in [meta]. When the directory or the
    connection fails nothing is created. *)
Theorem init_db_sets_once (c1 c2 : Config) storage storage' d d1 :
  init_db (cfg := c1) storage d = Ok d1 ->
  (forall d2, init_db (cfg := c2) storage' d1 = Ok d2 -> d2 = d1) /\
  (forall t, entries_table d = Some t -> entries_table d1 = Some t) /\
  (forall m k x,
      meta_table d = Some m -> m !! k = Some x ->
      exists m', meta_table d1 = Some m' /\ m' !! k = Some x).
Proof.
  unfold init_db. destruct storage as [[]|e]; [|discriminate].
  cbn [bind]. intros [= <-]. split; [|split].
  - destruct storage' as [[]|e]; [|discriminate]. cbn [bind]. intros d2 [= <-].
    unfold create_and_seed. cbn [entries_table meta_table default].
    f_equal. f_equal.
    rewrite (insert_or_ignore_present (str "btc_address")).
    + apply insert_or_ignore_present, insert_or_ignore_lookup.
    + destruct (insert_or_ignore_lookup (str "btc_address")
                  (BTC_ADDRESS (Config := c1)) (default ∅ (meta_table d)))
        as [x Hx].
      exists x. now apply insert_or_ignore_keeps.
  - intros t Ht. unfold create_and_seed. now rewrite Ht.
  - intros m k x Hm Hk. unfold create_and_seed. rewrite Hm.
    eexists. split; [reflexivity|].
    now apply insert_or_ignore_keeps, insert_or_ignore_keeps.
Qed.

End StartUp.

Section StartUpExport.

Context {cfg : Config} {py : Builtins}.

(** At start-up nothing is guarded, and the steps come in order. When the
    database cannot be opened [main] ends with that exception and touches
    neither database nor file. When the file cannot be written [main]
    ends with the exception of the export, whatever [PORT] holds, whereas
    a handler swallows the same failure. A [PORT] that is no integer ends
    [main] only after the database was initialised and the file written.
    Otherwise the service starts on that port (8080 without [PORT]) with
    no attempt on record, the stored table and its export in the file. *)
Theorem main_export_unguarded w storage port_env d f :
  (forall e, storage = Raise e -> main w storage port_env d f = (d, f, Raise e)) /\
  (storage = Ok tt -> fs w <> WriteOk ->
   fst (fst (main w storage port_env d f)) = create_and_seed d /\
   snd (main w storage port_env d f) = Raise OSError) /\
  (storage = Ok tt -> fs w = WriteOk ->
   let t := default empty_table (entries_table d) in
   fst (main w storage port_env d f) =
     (create_and_seed d, Written (export_document (export_iso w) t)) /\
   snd (main w storage port_env d f) =
     let* port := py_int (PyStr (default (str "8080") port_env)) in
     Ok ({| _ip_hits := ∅; db := t;
            log_json := Written (export_document (export_iso w) t) |}, port)).
Proof.
  split; [|split].
  - intros e ->. reflexivity.
  - intros -> Hfs. unfold main, export_log_json, init_db, create_and_seed.
    cbn [bind entries_table default].
    destruct (fs w); cbn [fst snd bind]; [congruence | auto | auto].
  - intros -> Hfs. unfold main, export_log_json, init_db, create_and_seed.
    cbn [bind entries_table default]. rewrite Hfs. cbn [fst snd bind log_json].
    split; reflexivity.
Qed.

End StartUpExport.

(** ** The timestamp *)

Section Timestamp.

Lemma two_digits_fmt z : (0 <= z < 100)%Z -> fmt_d 2 z = two_digits z.
Proof.
  intros Hz.
  assert (H : forallb (fun k => bool_decide
                (fmt_d 2 (Z.of_nat k) = two_digits (Z.of_nat k)))
              (List.seq 0 100) = true) by (vm_compute; reflexivity).
  rewrite forallb_forall in H. specialize (H (Z.to_nat z)).
  rewrite Z2Nat.id in H by lia. apply bool_decide_eq_true in H; auto.
  apply in_seq. lia.
Qed.

Lemma four_digits_fmt z : (0 <= z < 10000)%Z -> fmt_d 4 z = four_digits z.
Proof.
  intros Hz.
  assert (H : forallb (fun k => bool_decide
                (fmt_d 4 (Z.of_nat k) = four_digits (Z.of_nat k)))
              (List.seq 0 (Z.to_nat 10000)) = true) by (vm_compute; reflexivity).
  rewrite forallb_forall in H. specialize (H (Z.to_nat z)).
  rewrite Z2Nat.id in H by lia. apply bool_decide_eq_true in H; auto.
  apply in_seq. lia.
Qed.

Lemma is_prefix_other_head c p s a :
  a <> c -> is_prefix (a :: p) (c :: s) = false.
Proof. intros H. simpl. apply N.eqb_neq in H. now rewrite H. Qed.

(** A text without [+] followed by ["+00:00"] has that suffix, and
    nothing else, replaced. *)
Lemma str_replace_offset body :
  Forall (fun c => c <> 43%N) body ->
  str_replace (str "+00:00") (str "Z") (body ++ str "+00:00") 0 =
    body ++ str "Z".
Proof.
  induction 1 as [|c body Hc _ IH]; [reflexivity|].
  simpl app. cbn [str_replace].
  change (str "+00:00") with (43 :: str "00:00")%N at 1.
  rewrite is_prefix_other_head by congruence. now rewrite IH.
Qed.

Lemma digit_char_not_plus x : (0 <= x)%Z -> digit_char x <> 43%N.
Proof. unfold digit_char. lia. Qed.

(** [utc_now_iso] gives the 20 characters [YYYY-MM-DDTHH:MM:SSZ]: every
    field on its full width, the microseconds dropped, the zero offset
    written [Z]. *)
Theorem utc_now_iso_format dt :
  datetime_ok dt ->
  utc_now_iso dt =
    four_digits (year dt) ++ [45%N] ++ two_digits (month dt) ++ [45%N] ++
    two_digits (day dt) ++ [84%N] ++ two_digits (hour dt) ++ [58%N] ++
    two_digits (minute dt) ++ [58%N] ++ two_digits (second dt) ++ [90%N] /\
  length (utc_now_iso dt) = 20%nat.
Proof.
  intros (Hy & Hmo & Hd & Hh & Hmi & Hs & _).
  assert (H : utc_now_iso dt =
    four_digits (year dt) ++ [45%N] ++ two_digits (month dt) ++ [45%N] ++
    two_digits (day dt) ++ [84%N] ++ two_digits (hour dt) ++ [58%N] ++
    two_digits (minute dt) ++ [58%N] ++ two_digits (second dt) ++ [90%N]).
  { unfold utc_now_iso, isoformat, replace_microsecond.
    cbn [year month day hour minute second microsecond].
    change (0 =? 0)%Z with true. cbv iota.
    rewrite four_digits_fmt, !two_digits_fmt by lia.
    change (str "-") with [45%N]. change (str "T") with [84%N].
    change (str ":") with [58%N]. change (str "Z") with [90%N].
    unfold four_digits, two_digits. cbn [app].
    match goal with
    | |- str_replace _ _ ?l 0 = ?r =>
        change l with
          (removelast r ++ str "+00:00");
        change r with (removelast r ++ [90%N])
    end.
    cbn [removelast]. apply str_replace_offset.
    repeat (apply Forall_cons; split;
            [first [ apply digit_char_not_plus;
                     first [ apply Z.div_pos; lia
                           | apply Z.mod_pos_bound; lia ]
                   | discriminate ] |]).
    constructor. }
  split; [exact H|]. now rewrite H.
Qed.

End Timestamp.

(** ** Worked cases of the further properties *)

Section Cases.

#[local] Existing Instance Demo.config.
#[local] Existing Instance Demo.builtins.

(** After twelve attempts in twelve seconds the thirteenth is answered
    the same whatever its body and whatever the fact-sources would say. *)
Lemma gates_in_order_witness :
  ~ within_quota Demo.bad_txid (Demo.world 12)
      (fst (submit_all Demo.twelve_bad fresh)) /\
  api_submit Demo.nanaimo (Demo.world_tx_down 12)
    (fst (submit_all Demo.twelve_bad fresh)) =
  api_submit Demo.bad_txid (Demo.world 12)
    (fst (submit_all Demo.twelve_bad fresh)).
Proof.
  assert (Hq : ~ within_quota Demo.bad_txid (Demo.world 12)
                   (fst (submit_all Demo.twelve_bad fresh)))
    by (vm_compute; discriminate).
  split; [exact Hq|].
  exact (proj1 (gates_in_order Demo.bad_txid (Demo.world 12)
                  (fst (submit_all Demo.twelve_bad fresh)))
           Demo.nanaimo (Demo.world_tx_down 12) Hq eq_refl eq_refl).
Defined.

Lemma origins_isolated_witness :
  str "198.51.100.1" <> client_ip Demo.nanaimo /\
  _ip_hits (fst Demo.first_try) !! str "198.51.100.1" =
    _ip_hits fresh !! str "198.51.100.1".
Proof.
  assert (Hne : str "198.51.100.1" <> client_ip Demo.nanaimo)
    by (vm_compute; discriminate).
  split; [exact Hne|].
  exact (proj1 (origins_isolated Demo.nanaimo (Demo.world 1000) fresh) _ Hne).
Defined.

(** Forty attempts at the same instant, each under another
    [X-Forwarded-For] value: none is answered with 429. *)
Lemma new_origins_never_limited_witness :
  length Cases.rotating = 40%nat /\
  Forall (fun r => r <> Ok QuotaExceeded) (snd (submit_all Cases.rotating fresh)).
Proof.
  split; [reflexivity|].
  apply (new_origins_never_limited Cases.rotating fresh).
  - apply (bool_decide_unpack _). vm_compute. exact I.
  - apply List.Forall_forall. intros x _. apply lookup_empty.
Defined.

Lemma accepted_entry_is_listed_witness :
  snd Demo.first_try = Ok Accepted /\
  exists entries,
    length entries = 1%nat /\
    api_log (Demo.world 2000) (fst Demo.first_try) =
      PyDict [ (str "project", project_json (export_iso (Demo.world 2000)));
               (str "entries", PyList entries) ] /\
    log_json (fst Demo.first_try) =
      Written (PyDict [ (str "project", project_json (export_iso (Demo.world 1000)));
                        (str "entries", PyList entries) ]).
Proof.
  assert (H0 : table_ok (db fresh)) by (split; simpl; constructor).
  assert (Hacc : snd (api_submit Demo.nanaimo (Demo.world 1000) fresh) = Ok Accepted)
    by (vm_compute; reflexivity).
  split; [exact Hacc|].
  destruct (accepted_entry_is_listed Demo.nanaimo (Demo.world 1000)
              (Demo.world 2000) fresh H0 Hacc)
    as (f & amount & lat & lng & entries & _ & _ & _ & He & Hlog & Hfile).
  exists entries. split; [rewrite He; reflexivity|].
  split; [exact Hlog | exact (Hfile eq_refl)].
Defined.


(** The output to another address holds a value that is no number, the
    output to the project address holds none: the lookup is answered,
    without an exception, and nothing was paid. *)
Lemma verify_payment_reads_paying_outputs_witness :
  verify_payment Cases.world_odd_outputs Demo.txid_a = None.
Proof.
  assert (HF : Forall2 (loose_vout BTC_ADDRESS) Cases.odd_outputs
           [ {| vout_address := Some (str "bc1qother"); vout_value := 7 |};
             {| vout_address := Some BTC_ADDRESS; vout_value := 0 |} ]).
  { constructor; [|constructor; [|constructor]].
    - eexists. split; [reflexivity|]. split; [reflexivity|].
      intros H0. vm_compute in H0. discriminate.
    - eexists. split; [reflexivity|]. split; [reflexivity|].
      intros _. right. split; reflexivity. }
  exact (proj1 (verify_payment_reads_paying_outputs Cases.world_odd_outputs
                  Demo.txid_a [ (str "vout", PyList Cases.odd_outputs) ] eq_refl)
           _ _ eq_refl HF).
Defined.

Lemma resolve_location_first_candidate_witness :
  resolve_location Cases.world_first_incomplete (str "Nanaimo") (str "Canada") =
    None.
Proof.
  exact (resolve_location_first_candidate Cases.world_first_incomplete
           (str "Nanaimo") (str "Canada") _ _ eq_refl).
Defined.

Lemma api_stats_balance_witness :
  balance_lookup_fails Cases.stats_world_down /\
  api_stats Cases.stats_world_down =
    PyDict [ (str "btc_address", PyStr BTC_ADDRESS);
             (str "origin_label", PyStr ORIGIN_LABEL);
             (str "balance_btc", PyNone);
             (str "iso_date", PyStr (stats_iso Cases.stats_world_down)) ] /\
  api_stats Cases.stats_world =
    PyDict [ (str "btc_address", PyStr BTC_ADDRESS);
             (str "origin_label", PyStr ORIGIN_LABEL);
             (str "balance_btc", PyFloat double_0_0015);
             (str "iso_date", PyStr (stats_iso Cases.stats_world)) ] /\
  api_stats Cases.stats_world_huge =
    PyDict [ (str "btc_address", PyStr BTC_ADDRESS);
             (str "origin_label", PyStr ORIGIN_LABEL);
             (str "balance_btc", PyNone);
             (str "iso_date", PyStr (stats_iso Cases.stats_world_huge)) ].
Proof.
  assert (Hd : balance_lookup_fails Cases.stats_world_down) by exact I.
  split; [exact Hd|]. split; [|split].
  - exact (proj1 (api_stats_balance Cases.stats_world_down) Hd).
  - exact (proj2 (api_stats_balance Cases.stats_world) _ 250000 0 100000 0
             eq_refl eq_refl eq_refl eq_refl eq_refl)%Z.
  - exact (proj2 (api_stats_balance Cases.stats_world_huge) _ (2 ^ 1024) 0 0 0
             eq_refl eq_refl eq_refl eq_refl eq_refl)%Z.
Defined.

(** A database initialised under another address keeps that address
    when the service starts under the default configuration. *)
Lemma init_db_sets_once_witness :
  exists d1 m,
    init_db (cfg := Cases.other_config) (Ok tt) Cases.no_database = Ok d1 /\
    init_db (cfg := Demo.config) (Ok tt) d1 = Ok d1 /\
    meta_table d1 = Some m /\
    m !! str "btc_address" = Some (str "bc1qearlier").
Proof.
  assert (H1 : init_db (cfg := Cases.other_config) (Ok tt) Cases.no_database =
               Ok (create_and_seed (cfg := Cases.other_config) Cases.no_database))
    by reflexivity.
  destruct (init_db_sets_once Cases.other_config Demo.config (Ok tt) (Ok tt) _ _ H1)
    as (Hagain & _ & _).
  eexists _, _. split; [exact H1|]. split.
  - exact (f_equal Ok (Hagain _ eq_refl)).
  - split; [reflexivity|]. vm_compute. reflexivity.
Defined.

(** The file cannot be opened and [PORT] is no number: the start ends
    with the exception of the export. *)
Lemma main_export_unguarded_witness :
  fs (with_fs (Demo.world 0) OpenFails) <> WriteOk /\
  snd (main (with_fs (Demo.world 0) OpenFails) (Ok tt) (Some (str "http"))
         Cases.no_database NoFile) =
    Raise OSError.
Proof.
  assert (H : fs (with_fs (Demo.world 0) OpenFails) <> WriteOk)
    by (simpl; discriminate).
  split; [exact H|].
  exact (proj2 (proj1 (proj2 (main_export_unguarded _ (Ok tt) (Some (str "http"))
                                Cases.no_database NoFile)) eq_refl H)).
Defined.

Lemma utc_now_iso_format_witness :
  datetime_ok Cases.noon /\
  utc_now_iso Cases.noon = str "2024-05-01T12:00:07Z".
Proof.
  assert (H : datetime_ok Cases.noon) by (unfold datetime_ok; simpl; lia).
  split; [exact H|].
  exact (proj1 (utc_now_iso_format Cases.noon H)).
Defined.

(** A latitude that is not a number: the answer is the Duplicate
    response although the table is empty. *)
Lemma insert_decides_witness :
  rows (db fresh) = [] /\
  within_quota Demo.nanaimo (Demo.world_nan 1000) fresh /\
  api_submit Demo.nanaimo (Demo.world_nan 1000) fresh =
    (record_attempt Demo.nanaimo (Demo.world_nan 1000) fresh, Ok Duplicate).
Proof.
  assert (Hq : within_quota Demo.nanaimo (Demo.world_nan 1000) fresh)
    by (vm_compute; reflexivity).
  assert (Hg : exists c, gates Demo.nanaimo (Demo.world_nan 1000) = Ok (inr c) /\
                 bindable c = true /\ is_nan (c_lat c) = true)
    by (eexists; repeat split; vm_compute; reflexivity).
  destruct Hg as (c & Hg & Hb & Hnan).
  split; [reflexivity|]. split; [exact Hq|].
  apply (proj1 (proj2 (insert_decides _ _ _ _ Hq Hg)) Hb).
  left. now rewrite Hnan.
Defined.

Lemma stored_numbers_witness :
  Forall row_numbers (rows (db fresh)) /\
  Forall row_numbers
    (rows (db (step fresh (Submit Demo.nanaimo, Demo.world_minus_zero 1000)))).
Proof.
  assert (H0 : Forall row_numbers (rows (db fresh))) by constructor.
  split; [exact H0|].
  exact (proj1 stored_numbers fresh
           (Submit Demo.nanaimo, Demo.world_minus_zero 1000) H0).
Defined.

End Cases.
